(** * time_tracker.py: the record codec, the record store and the commands

    A shallow embedding of [src/time_tracker.py].  Python's [str] is a list
    of Unicode code points, integers are [Z], exceptions are an error
    monad, the two files under the store's root are a finite map from file
    name to text, and the wall clock is an argument of every operation
    that calls [datetime.now()]. *)

From Stdlib Require Import ZArith Lia List Bool String Ascii.
From stdpp Require Import base tactics option list gmap strings.

Open Scope Z_scope.

(** ** Text *)

(** A Python [str]: its code points, each in [0, 0x10FFFF]. *)
Definition str := list Z.

(** The code points of an ASCII literal of this file. *)
Definition u (s : string) : str :=
  map (fun a => Z.of_N (N_of_ascii a)) (list_ascii_of_string s).

Definition TAB : Z := 9.
Definition LF : Z := 10.
Definition CR : Z := 13.
Definition SPACE : Z := 32.
Definition DQUOTE : Z := 34.
Definition PERCENT : Z := 37.
Definition SQUOTE : Z := 39.
Definition PLUS : Z := 43.
Definition MINUS : Z := 45.
Definition COLON : Z := 58.
Definition BACKSLASH : Z := 92.
Definition UNDERSCORE : Z := 95.

(** ** Exceptions *)

Inductive exn := ValueError | SyntaxError | OverflowError | FileNotFoundError.

Inductive res (A : Type) : Type :=
| Ok (a : A)
| Raise (e : exn).
Arguments Ok {A} a.
Arguments Raise {A} e.

Definition bind {A B} (c : res A) (k : A -> res B) : res B :=
  match c with
  | Ok a => k a
  | Raise e => Raise e
  end.

Notation "'let*' x := c 'in' k" := (bind c (fun x => k))
  (at level 10, x pattern, c at level 100, k at level 200).

Definition is_ok {A} (c : res A) : bool :=
  match c with Ok _ => true | Raise _ => false end.

(** [[f(x) for x in xs]]: the first exception ends the comprehension. *)
Fixpoint map_res {A B} (f : A -> res B) (xs : list A) : res (list B) :=
  match xs with
  | [] => Ok []
  | x :: xs' => let* y := f x in let* ys := map_res f xs' in Ok (y :: ys)
  end.

(** ** The parts of the Python runtime that are tables or lie outside the
    program: the Unicode database and the literals other than a plain
    string literal. *)

(** A value [ast.literal_eval] can return: a [str], or something else. *)
Inductive value (other : Type) : Type :=
| VStr (s : str)
| VOther (o : other).
Arguments VStr {other} s.
Arguments VOther {other} o.

Class Runtime := {
  (** values of Python literals that are not [str] *)
  other : Type;
  (** [str.isprintable] of one code point, consulted from U+0080 on *)
  isprintable : Z -> bool;
  (** the decimal digit value of a code point, consulted from U+0080 on *)
  decimal : Z -> option Z;
  (** [ast.literal_eval] on a source text that is not one plain
      (unprefixed, singly quoted) string literal *)
  literal_other : str -> res (value other);
  (** [repr] of a value that is not a [str] *)
  repr_other : other -> str
}.

(** [str.isspace] of one code point: the Unicode white space. *)
Definition isspace (c : Z) : bool :=
  (9 <=? c) && (c <=? 13) || (28 <=? c) && (c <=? 32)
  || (c =? 133) || (c =? 160) || (c =? 5760)
  || (8192 <=? c) && (c <=? 8202)
  || (c =? 8232) || (c =? 8233) || (c =? 8239) || (c =? 8287) || (c =? 12288).

Fixpoint lstrip (s : str) : str :=
  match s with
  | c :: t => if isspace c then lstrip t else s
  | [] => []
  end.

Definition rstrip (s : str) : str := rev (lstrip (rev s)).

(** [s.strip()] *)
Definition strip (s : str) : str := rstrip (lstrip s).

(** The text of [s] up to the first [sep], and what follows it. *)
Fixpoint break_at (sep : Z) (s : str) : str * option str :=
  match s with
  | [] => ([], None)
  | c :: t =>
      if c =? sep then ([], Some t)
      else let '(a, r) := break_at sep t in (c :: a, r)
  end.

(** [s.split(sep, maxsplit)] for a separator of one character. *)
Fixpoint split_max (sep : Z) (maxsplit : nat) (s : str) {struct maxsplit} : list str :=
  match maxsplit with
  | O => [s]
  | S n =>
      match break_at sep s with
      | (a, Some r) => a :: split_max sep n r
      | (a, None) => [a]
      end
  end.

(** [s.split(sep)]: a text of [n] characters has at most [n] separators. *)
Definition split (sep : Z) (s : str) : list str :=
  split_max sep (length s) s.

(** ** Numbers and their text *)

Section Numbers.
Context {R : Runtime}.

(** The value of a decimal digit: ASCII, or by the Unicode database. *)
Definition digit_value (c : Z) : option Z :=
  if (48 <=? c) && (c <=? 57) then Some (c - 48)
  else if c <? 128 then None
  else decimal c.

Definition is_digit (c : Z) : bool :=
  match digit_value c with Some _ => true | None => false end.

(** White space of [int(str)]: the ASCII white space of the C locale, and
    the Unicode white space from U+0080 on (which [int] first maps to a
    space). *)
Definition int_space (c : Z) : bool :=
  (9 <=? c) && (c <=? 13) || (c =? 32) || (128 <=? c) && isspace c.

Fixpoint skip_int_space (s : str) : str :=
  match s with
  | c :: t => if int_space c then skip_int_space t else s
  | [] => []
  end.

(** The digits of an integer literal, single underscores allowed between
    digits: the value, the number of digits and the text left. *)
Fixpoint int_body (after_digit : bool) (acc n : Z) (s : str) : option (Z * Z * str) :=
  match s with
  | c :: t =>
      match digit_value c with
      | Some d => int_body true (10 * acc + d) (n + 1) t
      | None =>
          if c =? UNDERSCORE then
            if after_digit then int_body false acc n t else None
          else if after_digit then Some (acc, n, s) else None
      end
  | [] => if after_digit then Some (acc, n, []) else None
  end.

(** [sys.get_int_max_str_digits()], the interpreter's default. *)
Definition int_max_str_digits : Z := 4300.

(** [int(s)] for a [str] (base 10). *)
Definition py_int (s : str) : res Z :=
  let s1 := skip_int_space s in
  let '(neg, s2) :=
    match s1 with
    | c :: t => if c =? MINUS then (true, t) else if c =? PLUS then (false, t) else (false, s1)
    | [] => (false, s1)
    end in
  match int_body false 0 0 s2 with
  | Some (v, n, rest) =>
      match skip_int_space rest with
      | [] => if int_max_str_digits <? n then Raise ValueError
              else Ok (if neg then - v else v)
      | _ :: _ => Raise ValueError
      end
  | None => Raise ValueError
  end.

(** The decimal digits of [n >= 0]; [fuel] counts the digits after the
    first. *)
Fixpoint digits_fuel (fuel : nat) (n : Z) : str :=
  match fuel with
  | O => [48 + n mod 10]
  | S fuel' =>
      if n <? 10 then [48 + n]
      else digits_fuel fuel' (n / 10) ++ [48 + n mod 10]
  end.

(** The decimal digits of [|n|]: a number has no more decimal digits than
    binary ones. *)
Definition decimal_digits (n : Z) : str :=
  digits_fuel (Z.to_nat (Z.log2 (Z.abs n))) (Z.abs n).

(** [f"{n:0w}"]: sign first, then zeros up to the width [w]. *)
Definition zero_pad (w : nat) (n : Z) : str :=
  let ds := decimal_digits n in
  if n <? 0 then MINUS :: repeat 48 (w - 1 - length ds) ++ ds
  else repeat 48 (w - length ds) ++ ds.

End Numbers.

(** ** [datetime.timedelta] and [datetime.datetime] *)

(** A duration in Python's normal form: [0 <= seconds < 86400],
    [0 <= microseconds < 1000000], only [days] carrying the sign. *)
Record timedelta := { days : Z; seconds : Z; microseconds : Z }.

Record datetime := {
  year : Z; month : Z; day : Z;
  hour : Z; minute : Z; second : Z; microsecond : Z
}.

(** [timedelta(days=d, seconds=s, microseconds=us)] on integers: the
    carries, then the range check of the constructor. *)
Definition timedelta_new (d s us : Z) : res timedelta :=
  let s1 := s + us / 1000000 in
  let d1 := d + s1 / 86400 in
  if 999999999 <? Z.abs d1 then Raise OverflowError
  else Ok {| days := d1; seconds := s1 mod 86400; microseconds := us mod 1000000 |}.

(** [timedelta(hours=h, minutes=m, seconds=s)] *)
Definition timedelta_hms (h m s : Z) : res timedelta :=
  timedelta_new 0 (h * 3600 + m * 60 + s) 0.

(** [timedelta()] *)
Definition timedelta_zero : timedelta :=
  {| days := 0; seconds := 0; microseconds := 0 |}.

Definition timedelta_add (a b : timedelta) : res timedelta :=
  timedelta_new (days a + days b) (seconds a + seconds b)
                (microseconds a + microseconds b).

Definition is_leap (y : Z) : bool :=
  (y mod 4 =? 0) && (negb (y mod 100 =? 0) || (y mod 400 =? 0)).

Definition DAYS_IN_MONTH : list Z :=
  [-1; 31; 28; 31; 30; 31; 30; 31; 31; 30; 31; 30; 31].

Definition DAYS_BEFORE_MONTH : list Z :=
  [-1; 0; 31; 59; 90; 120; 151; 181; 212; 243; 273; 304; 334].

Definition days_in_month (y m : Z) : Z :=
  if (m =? 2) && is_leap y then 29 else nth (Z.to_nat m) DAYS_IN_MONTH (-1).

Definition days_before_year (y : Z) : Z :=
  let y1 := y - 1 in y1 * 365 + y1 / 4 - y1 / 100 + y1 / 400.

Definition days_before_month (y m : Z) : Z :=
  nth (Z.to_nat m) DAYS_BEFORE_MONTH (-1) + (if (2 <? m) && is_leap y then 1 else 0).

(** [_ymd2ord]: 1 for 0001-01-01. *)
Definition ymd2ord (y m d : Z) : Z :=
  days_before_year y + days_before_month y m + d.

Definition MAXORDINAL : Z := 3652059.

(** [_ord2ymd], the inverse of [_ymd2ord]. *)
Definition ord2ymd (n0 : Z) : Z * Z * Z :=
  let n := n0 - 1 in
  let n400 := n / 146097 in let n := n mod 146097 in
  let y := n400 * 400 + 1 in
  let n100 := n / 36524 in let n := n mod 36524 in
  let n4 := n / 1461 in let n := n mod 1461 in
  let n1 := n / 365 in let n := n mod 365 in
  let y := y + n100 * 100 + n4 * 4 + n1 in
  if (n1 =? 4) || (n100 =? 4) then (y - 1, 12, 31)
  else
    let leapyear := (n1 =? 3) && (negb (n4 =? 24) || (n100 =? 3)) in
    let m := Z.shiftr (n + 50) 5 in
    let preceding :=
      nth (Z.to_nat m) DAYS_BEFORE_MONTH (-1) + (if (2 <? m) && leapyear then 1 else 0) in
    if n <? preceding then
      let m1 := m - 1 in
      let preceding1 :=
        preceding - (nth (Z.to_nat m1) DAYS_IN_MONTH (-1)
                     + (if (m1 =? 2) && leapyear then 1 else 0)) in
      (y, m1, n - preceding1 + 1)
    else (y, m, n - preceding + 1).

(** The argument checks of the [datetime] constructor. *)
Definition valid_datetimeb (t : datetime) : bool :=
  (1 <=? year t) && (year t <=? 9999)
  && (1 <=? month t) && (month t <=? 12)
  && (1 <=? day t) && (day t <=? days_in_month (year t) (month t))
  && (0 <=? hour t) && (hour t <=? 23)
  && (0 <=? minute t) && (minute t <=? 59)
  && (0 <=? second t) && (second t <=? 59)
  && (0 <=? microsecond t) && (microsecond t <=? 999999).

(** [datetime(y, m, d, hh, mm, ss)] *)
Definition datetime_new (y m d hh mm ss : Z) : res datetime :=
  let t := {| year := y; month := m; day := d;
              hour := hh; minute := mm; second := ss; microsecond := 0 |} in
  if valid_datetimeb t then Ok t else Raise ValueError.

(** [t.date()] *)
Definition date_of (t : datetime) : Z * Z * Z := (year t, month t, day t).

Definition toordinal (t : datetime) : Z := ymd2ord (year t) (month t) (day t).

Definition seconds_of_day (t : datetime) : Z :=
  second t + minute t * 60 + hour t * 3600.

(** [a - b] for two datetimes *)
Definition datetime_sub (a b : datetime) : res timedelta :=
  timedelta_new (toordinal a - toordinal b)
                (seconds_of_day a - seconds_of_day b)
                (microsecond a - microsecond b).

(** [t + d] *)
Definition datetime_add (t : datetime) (d : timedelta) : res datetime :=
  let* delta := timedelta_new (toordinal t)
                  (hour t * 3600 + minute t * 60 + second t) (microsecond t) in
  let* delta := timedelta_add delta d in
  let hh := seconds delta / 3600 in
  let rem := seconds delta mod 3600 in
  if (0 <? days delta) && (days delta <=? MAXORDINAL) then
    let '(y, m, dd) := ord2ymd (days delta) in
    Ok {| year := y; month := m; day := dd;
          hour := hh; minute := rem / 60; second := rem mod 60;
          microsecond := microseconds delta |}
  else Raise OverflowError.

(** ** [strftime] and [strptime]

    Of the format directives only those the program uses are modelled:
    [%Y %m %d %H %M %S], on a [datetime] whose fields are in range; [%Y]
    is written with four digits. *)

Inductive directive := DY | Dm | Dd | DH | DM | DS.

Definition directive_of (c : Z) : option directive :=
  if c =? 89 then Some DY else if c =? 109 then Some Dm
  else if c =? 100 then Some Dd else if c =? 72 then Some DH
  else if c =? 77 then Some DM else if c =? 83 then Some DS
  else None.

Definition directive_eqb (a b : directive) : bool :=
  match a, b with
  | DY, DY | Dm, Dm | Dd, Dd | DH, DH | DM, DM | DS, DS => true
  | _, _ => false
  end.

(** [n] in [w] decimal digits, what the C library writes for a field of
    fixed width whose value is in range. *)
Fixpoint dec_fixed (w : nat) (n : Z) : str :=
  match w with
  | O => []
  | S w' => dec_fixed w' (n / 10) ++ [48 + n mod 10]
  end.

Definition field (d : directive) (t : datetime) : str :=
  match d with
  | DY => dec_fixed 4 (year t)
  | Dm => dec_fixed 2 (month t)
  | Dd => dec_fixed 2 (day t)
  | DH => dec_fixed 2 (hour t)
  | DM => dec_fixed 2 (minute t)
  | DS => dec_fixed 2 (second t)
  end.

(** [t.strftime(fmt)] *)
Fixpoint strftime (t : datetime) (fmt : str) : str :=
  match fmt with
  | [] => []
  | c :: rest =>
      if c =? PERCENT then
        match rest with
        | d :: rest' =>
            match directive_of d with
            | Some dir => field dir t ++ strftime t rest'
            | None => c :: d :: strftime t rest'
            end
        | [] => [c]
        end
      else c :: strftime t rest
  end.

(** The regular expression [strptime] builds from a format: literal
    characters, [\s+] for each run of white space, and one named group of
    alternatives per directive. *)
Inductive cls := CDigit | CRange (lo hi : Z) | CChar (c : Z).

Inductive item := ILit (c : Z) | ISpaces | IGroup (d : directive).

Definition directive_alts (d : directive) : list (list cls) :=
  match d with
  | DY => [[CDigit; CDigit; CDigit; CDigit]]
  | Dm => [[CChar 49; CRange 48 50]; [CChar 48; CRange 49 57]; [CRange 49 57]]
  | Dd => [[CChar 51; CRange 48 49]; [CRange 49 50; CDigit];
           [CChar 48; CRange 49 57]; [CRange 49 57]; [CChar 32; CRange 49 57]]
  | DH => [[CChar 50; CRange 48 51]; [CRange 48 49; CDigit]; [CDigit]]
  | DM => [[CRange 48 53; CDigit]; [CDigit]]
  | DS => [[CChar 54; CRange 48 49]; [CRange 48 53; CDigit]; [CDigit]]
  end.

Fixpoint compile_format (in_space : bool) (fmt : str) : option (list item) :=
  match fmt with
  | [] => Some []
  | c :: rest =>
      if c =? PERCENT then
        match rest with
        | d :: rest' =>
            match directive_of d with
            | Some dir => cons (IGroup dir) <$> compile_format false rest'
            | None => None
            end
        | [] => None
        end
      else if isspace c then
        if in_space then compile_format true rest
        else cons ISpaces <$> compile_format true rest
      else cons (ILit c) <$> compile_format false rest
  end.

Section Strptime.
Context {R : Runtime}.

Definition cls_test (k : cls) (c : Z) : bool :=
  match k with
  | CDigit => is_digit c
  | CRange lo hi => (lo <=? c) && (c <=? hi)
  | CChar x => c =? x
  end.

(** One alternative against the head of [s]: the text taken, the text left. *)
Fixpoint match_alt (a : list cls) (s : str) : option (str * str) :=
  match a with
  | [] => Some ([], s)
  | k :: a' =>
      match s with
      | c :: t =>
          if cls_test k c then
            match match_alt a' t with
            | Some (g, r) => Some (c :: g, r)
            | None => None
            end
          else None
      | [] => None
      end
  end.

(** Alternation backtracks: the first alternative after which the rest of
    the expression [k] matches. *)
Fixpoint first_alt {A} (alts : list (list cls)) (s : str)
    (k : str -> str -> option A) : option A :=
  match alts with
  | [] => None
  | a :: alts' =>
      match match_alt a s with
      | Some (g, r) =>
          match k g r with
          | Some x => Some x
          | None => first_alt alts' s k
          end
      | None => first_alt alts' s k
      end
  end.

(** [\s*], greedy, giving white space back while [k] fails. *)
Fixpoint spaces_star {A} (s : str) (k : str -> option A) : option A :=
  match s with
  | c :: t =>
      if isspace c then
        match spaces_star t k with
        | Some x => Some x
        | None => k s
        end
      else k s
  | [] => k []
  end.

(** [re.match]: the groups found and the text after the match. *)
Fixpoint re_match (items : list item) (s : str) : option (list (directive * str) * str) :=
  match items with
  | [] => Some ([], s)
  | ILit c :: items' =>
      match s with
      | x :: t => if x =? c then re_match items' t else None
      | [] => None
      end
  | ISpaces :: items' =>
      match s with
      | x :: t => if isspace x then spaces_star t (re_match items') else None
      | [] => None
      end
  | IGroup d :: items' =>
      first_alt (directive_alts d) s
        (fun g r =>
           match re_match items' r with
           | Some (f, rest) => Some ((d, g) :: f, rest)
           | None => None
           end)
  end.

(** [int(found_dict[d])] when the group is there, else the default. *)
Fixpoint group (d : directive) (found : list (directive * str)) (default : Z) : res Z :=
  match found with
  | [] => Ok default
  | (d', g) :: found' => if directive_eqb d d' then py_int g else group d found' default
  end.

(** [datetime.strptime(s, fmt)] *)
Definition strptime (s fmt : str) : res datetime :=
  match compile_format false fmt with
  | None => Raise ValueError
  | Some items =>
      match re_match items s with
      | Some (found, []) =>
          let* y := group DY found 1900 in
          let* m := group Dm found 1 in
          let* d := group Dd found 1 in
          let* hh := group DH found 0 in
          let* mm := group DM found 0 in
          let* ss := group DS found 0 in
          datetime_new y m d hh mm ss
      | _ => Raise ValueError
      end
  end.

End Strptime.

Definition DATE_FORMAT : str := u "%Y-%m-%d %H:%M:%S".

(** ** [repr] of a [str] and [ast.literal_eval] *)

Definition hex_digit (n : Z) : Z := if n <? 10 then 48 + n else 87 + n.

(** [c] in [w] lower-case hexadecimal digits. *)
Fixpoint hex_fixed (w : nat) (c : Z) : str :=
  match w with
  | O => []
  | S w' => hex_fixed w' (c / 16) ++ [hex_digit (c mod 16)]
  end.

Definition hex_value (c : Z) : option Z :=
  if (48 <=? c) && (c <=? 57) then Some (c - 48)
  else if (97 <=? c) && (c <=? 102) then Some (c - 87)
  else if (65 <=? c) && (c <=? 70) then Some (c - 55)
  else None.

Definition oct_value (c : Z) : option Z :=
  if (48 <=? c) && (c <=? 55) then Some (c - 48) else None.

Definition is_surrogate (c : Z) : bool := (55296 <=? c) && (c <=? 57343).

Section Repr.
Context {R : Runtime}.

(** One character of [repr(s)] inside the quote [quote]; a surrogate is
    never printable. *)
Definition repr_char (quote c : Z) : str :=
  if (c =? quote) || (c =? BACKSLASH) then [BACKSLASH; c]
  else if c =? TAB then [BACKSLASH; 116]
  else if c =? LF then [BACKSLASH; 110]
  else if c =? CR then [BACKSLASH; 114]
  else if (c <? 32) || (c =? 127) then BACKSLASH :: 120 :: hex_fixed 2 c
  else if c <? 127 then [c]
  else if isprintable c && negb (is_surrogate c) then [c]
  else if c <=? 255 then BACKSLASH :: 120 :: hex_fixed 2 c
  else if c <=? 65535 then BACKSLASH :: 117 :: hex_fixed 4 c
  else BACKSLASH :: 85 :: hex_fixed 8 c.

(** The quote [repr] picks: double only when the text has a single quote
    and no double quote. *)
Definition repr_quote (s : str) : Z :=
  if existsb (Z.eqb SQUOTE) s && negb (existsb (Z.eqb DQUOTE) s)
  then DQUOTE else SQUOTE.

(** [repr(s)] for a [str] *)
Definition repr_str (s : str) : str :=
  let q := repr_quote s in
  q :: flat_map (repr_char q) s ++ [q].

(** [repr(v)], the [!r] conversion of an f-string. *)
Definition repr (v : value other) : str :=
  match v with
  | VStr s => repr_str s
  | VOther o => repr_other o
  end.

End Repr.

(** What the scanner of a string literal is in the middle of. *)
Inductive lit_state :=
| LNormal
| LEscape
| LHex (todo : nat) (acc : Z)
| LOct (todo : nat) (acc : Z)
| LContinue.

(** A source text seen as one plain string literal: its value or its
    syntax error; or not such a literal at all. *)
Inductive literal :=
| Plain (r : res str)
| NotPlain.

Definition emit (c : Z) (l : literal) : literal :=
  match l with
  | Plain (Ok s) => Plain (Ok (c :: s))
  | _ => l
  end.

Definition simple_escape (c : Z) : option Z :=
  if (c =? BACKSLASH) || (c =? SQUOTE) || (c =? DQUOTE) then Some c
  else if c =? 97 then Some 7 else if c =? 98 then Some 8
  else if c =? 102 then Some 12 else if c =? 110 then Some LF
  else if c =? 114 then Some CR else if c =? 116 then Some TAB
  else if c =? 118 then Some 11
  else None.

(** The body of a literal opened by [q], up to the closing quote, which
    must end the source text. *)
Fixpoint scan_literal (q : Z) (st : lit_state) (s : str) : literal :=
  match s with
  | [] => Plain (Raise SyntaxError)
  | c :: t =>
      let normal :=
        if c =? q then match t with [] => Plain (Ok []) | _ :: _ => NotPlain end
        else if c =? BACKSLASH then scan_literal q LEscape t
        else if (c =? LF) || (c =? CR) then Plain (Raise SyntaxError)
        else emit c (scan_literal q LNormal t) in
      match st with
      | LNormal => normal
      | LEscape =>
          match simple_escape c with
          | Some v => emit v (scan_literal q LNormal t)
          | None =>
              if c =? LF then scan_literal q LNormal t
              else if c =? CR then scan_literal q LContinue t
              else if c =? 120 then scan_literal q (LHex 2 0) t
              else if c =? 117 then scan_literal q (LHex 4 0) t
              else if c =? 85 then scan_literal q (LHex 8 0) t
              else if c =? 78 then NotPlain
              else match oct_value c with
                   | Some d => scan_literal q (LOct 2 d) t
                   | None => emit BACKSLASH (emit c (scan_literal q LNormal t))
                   end
          end
      | LHex todo acc =>
          match hex_value c, todo with
          | Some d, 1%nat =>
              let v := acc * 16 + d in
              if 1114111 <? v then Plain (Raise SyntaxError)
              else emit v (scan_literal q LNormal t)
          | Some d, S todo' => scan_literal q (LHex todo' (acc * 16 + d)) t
          | _, _ => Plain (Raise SyntaxError)
          end
      | LOct todo acc =>
          match oct_value c, todo with
          | Some d, 1%nat => emit (acc * 8 + d) (scan_literal q LNormal t)
          | Some d, S todo' => scan_literal q (LOct todo' (acc * 8 + d)) t
          | _, _ => emit acc normal
          end
      | LContinue => if c =? LF then scan_literal q LNormal t else normal
      end
  end.

Fixpoint lstrip_blank (s : str) : str :=
  match s with
  | c :: t => if (c =? SPACE) || (c =? TAB) then lstrip_blank t else s
  | [] => []
  end.

Definition plain_literal (src : str) : literal :=
  if existsb (fun c => (c =? 0) || is_surrogate c) src then NotPlain
  else
    match lstrip_blank src with
    | q :: body =>
        if (q =? SQUOTE) || (q =? DQUOTE) then
          match body with
          | q1 :: q2 :: _ =>
              if (q1 =? q) && (q2 =? q) then NotPlain else scan_literal q LNormal body
          | _ => scan_literal q LNormal body
          end
        else NotPlain
    | [] => NotPlain
    end.

(** [ast.literal_eval(src)] *)
Definition literal_eval {R : Runtime} (src : str) : res (value other) :=
  match plain_literal src with
  | Plain r => let* s := r in Ok (VStr s)
  | NotPlain => literal_other src
  end.

(** ** The record codec *)

Section Codec.
Context {R : Runtime}.

(** A log entry: start, elapsed time, description. *)
Definition entry : Type := datetime * timedelta * value other.

Definition parse_td (td : str) : res timedelta :=
  let* fields := map_res py_int (split COLON td) in
  match fields with
  | [hours; minutes; seconds] => timedelta_hms hours minutes seconds
  | _ => Raise ValueError
  end.

Definition dump_td (td : timedelta) : str :=
  let hours := seconds td / 60 ^ 2 in
  let minutes := (seconds td mod 60 ^ 2) / 60 in
  let seconds := seconds td mod 60 in
  zero_pad 2 hours ++ [COLON] ++ zero_pad 2 minutes ++ [COLON] ++ zero_pad 2 seconds.

Definition parse_entry (line : str) : res entry :=
  match split_max TAB 2 (strip line) with
  | [start; delta; desc] =>
      let* start := strptime start DATE_FORMAT in
      let* delta := parse_td delta in
      let* desc := literal_eval desc in
      Ok (start, delta, desc)
  | _ => Raise ValueError
  end.

Definition dump_entry (e : entry) : str :=
  let '(start, delta, desc) := e in
  strftime start DATE_FORMAT ++ [TAB] ++ dump_td delta ++ [TAB] ++ repr desc.

End Codec.

(** ** Text files

    A file holds the text written to it; its encoding is not modelled. *)

(** Reading in text mode: [\r\n] and [\r] arrive as [\n]. *)
Fixpoint translate_newlines (s : str) : str :=
  match s with
  | [] => []
  | c :: t =>
      if c =? CR then
        match t with
        | c' :: t' => if c' =? LF then LF :: translate_newlines t'
                      else LF :: translate_newlines t
        | [] => [LF]
        end
      else c :: translate_newlines t
  end.

(** The lines of a text, each with its [\n]; a last line may lack it. *)
Fixpoint lines_from (cur : str) (s : str) : list str :=
  match s with
  | [] => match cur with [] => [] | _ :: _ => [rev cur] end
  | c :: t =>
      if c =? LF then rev (c :: cur) :: lines_from [] t
      else lines_from (c :: cur) t
  end.

(** [for line in f] *)
Definition readlines (s : str) : list str := lines_from [] (translate_newlines s).

(** ** The record store: class [Record]

    The state is the content of the root directory, a map from file name
    to text. *)

Module RecordStore.
Section Ops.
Context {R : Runtime}.

Definition current_stamp : string := "_current_stamp".
Definition log : string := "log.txt".

(** [Record(root)]: the log file is created empty when it is missing. *)
Definition init (fs : gmap string str) : gmap string str :=
  match fs !! log with
  | Some _ => fs
  | None => <[log := []]> fs
  end.

Definition start (now : datetime) (fs : gmap string str) : bool * gmap string str :=
  match fs !! current_stamp with
  | Some _ => (false, fs)
  | None => (true, <[current_stamp := strftime now DATE_FORMAT]> fs)
  end.

Definition current (now : datetime) (fs : gmap string str)
    : res (option datetime * timedelta) :=
  match fs !! current_stamp with
  | None => Ok (None, timedelta_zero)
  | Some text =>
      let* start := strptime (translate_newlines text) DATE_FORMAT in
      let* delta := datetime_sub now start in
      Ok (Some start, delta)
  end.

Definition write (start : datetime) (delta : timedelta) (desc : value other)
    (fs : gmap string str) : gmap string str :=
  let text := dump_entry (start, delta, desc) in
  <[log := default [] (fs !! log) ++ text ++ [LF]]> fs.

Definition load (fs : gmap string str) : res (list entry) :=
  match fs !! log with
  | None => Raise FileNotFoundError
  | Some text => map_res parse_entry (readlines text)
  end.

Definition stop (fs : gmap string str) : gmap string str :=
  match fs !! current_stamp with
  | Some _ => delete current_stamp fs
  | None => fs
  end.

End Ops.
End RecordStore.

(** ** The commands *)

Definition ESC : Z := 27.
Definition BLUE : str := ESC :: u "[94m".
Definition GREEN : str := ESC :: u "[92m".
Definition RED : str := ESC :: u "[91m".
Definition GRAY : str := ESC :: u "[90m".
Definition END : str := ESC :: u "[0m".

Section Commands.
Context {R : Runtime}.

(** [status]: the text given to [click.echo]. *)
Definition status (now : datetime) (fs : gmap string str) : res str :=
  let* (start, delta) := RecordStore.current now fs in
  match start with
  | None => Ok (RED ++ u "Timer is not currently tracking." ++ END)
  | Some _ =>
      let* origin := datetime_new 1 1 1 0 0 0 in
      let* time := datetime_add origin delta in
      Ok (BLUE ++ u "Time elapsed: " ++ strftime time (u "%H:%M:%S") ++ END)
  end.

(** [show]: the list [records], of which one line each is echoed. *)
Definition show (now : datetime) (date : option str) (fs : gmap string str)
    : res (list entry) :=
  let* date_time :=
    match date with
    | None => Ok now
    | Some d => strptime d (u "%Y-%m-%d")
    end in
  let on_date := fun e : entry => bool_decide (date_of e.1.1 = date_of date_time) in
  let* entries := RecordStore.load fs in
  Ok (filter on_date entries).

(** The loop of the generator [reverse_log] of [log], from the state
    [curr] on. *)
Fixpoint reverse_log_from (curr : option (Z * Z * Z)) (entries : list entry) : list str :=
  match entries with
  | [] => []
  | e :: rest =>
      let date := date_of e.1.1 in
      let curr := match curr with None => date | Some c => c end in
      if bool_decide (curr = date)
      then (dump_entry e ++ [LF]) :: reverse_log_from (Some curr) rest
      else [LF] :: (dump_entry e ++ [LF]) :: reverse_log_from (Some date) rest
  end.

(** [reverse_log()]: all that the generator yields, [curr] being [None]
    at first. *)
Definition reverse_log (fs : gmap string str) : res (list str) :=
  let* entries := RecordStore.load fs in
  Ok (reverse_log_from None (rev entries)).

(** [log]: the texts given to the pager. *)
Definition log (fs : gmap string str) : res (list str) := reverse_log fs.

End Commands.

(** ** A runtime to compute with

    The Unicode tables are those of Latin-1; every other code point counts
    as neither printable nor a digit, and no literal but a plain string is
    accepted. *)

Definition latin1_printable (c : Z) : bool :=
  (161 <=? c) && (c <=? 255) && negb (c =? 173).

Definition latin1 : Runtime := {|
  other := Empty_set;
  isprintable := latin1_printable;
  decimal := fun _ => None;
  literal_other := fun _ => Raise ValueError;
  repr_other := fun o => match o with end
|}.

(** ** Definitions that support the proofs *)

(** A code point of Unicode. *)
Definition code_point (c : Z) : Prop := 0 <= c <= 1114111.

(** [t] without its microseconds: what [strftime] with [DATE_FORMAT]
    keeps of it. *)
Definition whole_second (t : datetime) : datetime :=
  {| year := year t; month := month t; day := day t;
     hour := hour t; minute := minute t; second := second t;
     microsecond := 0 |}.

(** The first alternative that matches a text starting with [a], [b] is
    one of two characters. *)
Fixpoint take2 {R : Runtime} (alts : list (list cls)) (a b : Z) : bool :=
  match alts with
  | [] => false
  | [k1; k2] :: alts' =>
      if cls_test k1 a && cls_test k2 b then true else take2 alts' a b
  | [k1] :: alts' => if cls_test k1 a then false else take2 alts' a b
  | _ :: _ => false
  end.

(** What [dump_td] keeps of a duration: the whole seconds within the day. *)
Definition clock_part (td : timedelta) : timedelta :=
  {| days := 0; seconds := seconds td; microseconds := 0 |}.

(** A character that is not a control character nor a surrogate. *)
Definition visible (x : Z) : Prop := 32 <= x /\ is_surrogate x = false.

(** A duration without its fraction of a second. *)
Definition truncate_td (td : timedelta) : timedelta :=
  {| days := days td; seconds := seconds td; microseconds := 0 |}.

(** The triples of the append-only law: a time stamp to the second, a
    duration within one day (its fraction of a second is free), a
    description of code points. *)
Definition writable (e : datetime * timedelta * str) : Prop :=
  valid_datetimeb e.1.1 = true /\ microsecond e.1.1 = 0
  /\ days e.1.2 = 0 /\ 0 <= seconds e.1.2 < 86400
  /\ Forall code_point e.2.

(** The store after the calls [write(start, delta, desc)] for each element
    of [es] in turn. *)
Definition write_all {R : Runtime} (es : list (datetime * timedelta * str))
    (fs : gmap string str) : gmap string str :=
  fold_left (fun fs e => RecordStore.write e.1.1 e.1.2 (VStr e.2) fs) es fs.

(** The microseconds from the start of 0001-01-01 to [t], and those a
    duration holds. *)
Definition instant (t : datetime) : Z :=
  (toordinal t * 86400 + seconds_of_day t) * 1000000 + microsecond t.

Definition td_micros (td : timedelta) : Z :=
  (days td * 86400 + seconds td) * 1000000 + microseconds td.

(** Python's normal form of a duration. *)
Definition normal_td (td : timedelta) : Prop :=
  0 <= seconds td < 86400 /\ 0 <= microseconds td < 1000000.

Definition code_pointb (c : Z) : bool := (0 <=? c) && (c <=? 1114111).

(** A text of code points. *)
Definition textb (s : str) : bool := forallb code_pointb s.

(** [writable], decided. *)
Definition writableb (e : datetime * timedelta * str) : bool :=
  valid_datetimeb e.1.1 && (microsecond e.1.1 =? 0)
  && (days e.1.2 =? 0) && (0 <=? seconds e.1.2) && (seconds e.1.2 <? 86400)
  && textb e.2.

(** The entry [load] gives back for a written one: the duration without
    its fraction of a second. *)
Definition stored {R : Runtime} (e : datetime * timedelta * str) : entry :=
  (e.1.1, truncate_td e.1.2, VStr e.2).

(** Examples to compute with: 2024-01-01 09:00:00 and 2024-01-02 09:00:00,
    durations of five seconds, five and a half seconds and twenty-five
    hours, and a description with a tab, both quotes, a backslash and a
    line feed. *)
Definition day1_9am : datetime :=
  {| year := 2024; month := 1; day := 1;
     hour := 9; minute := 0; second := 0; microsecond := 0 |}.

Definition day2_9am : datetime :=
  {| year := 2024; month := 1; day := 2;
     hour := 9; minute := 0; second := 0; microsecond := 0 |}.

Definition five_seconds : timedelta :=
  {| days := 0; seconds := 5; microseconds := 0 |}.

Definition five_and_a_half_seconds : timedelta :=
  {| days := 0; seconds := 5; microseconds := 500000 |}.

Definition twenty_five_hours : timedelta :=
  {| days := 1; seconds := 3600; microseconds := 0 |}.

Definition awkward_text : str := u "did X" ++ [TAB; SQUOTE; DQUOTE; BACKSLASH; LF].

Definition day1_9am_5s : datetime :=
  {| year := 2024; month := 1; day := 1;
     hour := 9; minute := 0; second := 5; microsecond := 250000 |}.

(** ** The listing of [log], in the words of the specification

    The entries in the order given, each on a line of its own, with one
    blank separator line between two neighbours whose calendar dates
    differ and none between two of the same date. *)

Inductive log_item {R : Runtime} :=
| Separator
| Line (e : entry).

Fixpoint grouped {R : Runtime} (prev : option entry) (es : list entry) : list log_item :=
  match es with
  | [] => []
  | e :: rest =>
      match prev with
      | Some p =>
          if bool_decide (date_of p.1.1 = date_of e.1.1) then [] else [Separator]
      | None => []
      end ++ Line e :: grouped (Some e) rest
  end.

Definition render {R : Runtime} (item : log_item) : str :=
  match item with
  | Separator => [LF]
  | Line e => dump_entry e ++ [LF]
  end.

(** The entries of a listing, its separators left out. *)
Fixpoint lines_of {R : Runtime} (items : list log_item) : list entry :=
  match items with
  | [] => []
  | Separator :: rest => lines_of rest
  | Line e :: rest => e :: lines_of rest
  end.

Definition day1_10am : datetime :=
  {| year := 2024; month := 1; day := 1;
     hour := 10; minute := 0; second := 0; microsecond := 0 |}.

Definition day2_10am : datetime :=
  {| year := 2024; month := 1; day := 2;
     hour := 10; minute := 0; second := 0; microsecond := 0 |}.

(** A store with three entries: two on 2024-01-01, one on 2024-01-02. *)
Definition three_entries : gmap string str :=
  write_all (R := latin1)
    [(day1_9am, five_seconds, awkward_text);
     (day1_10am, five_seconds, u "second");
     (day2_9am, five_seconds, [])]
    (RecordStore.init ∅).

(** ** The fixed format of a duration, in the words of the specification:
    [HH:MM:SS], two digits for the minutes and for the seconds and at
    least two for the hours. *)

Definition ascii_digit (c : Z) : bool := (48 <=? c) && (c <=? 57).

Definition fixed_duration (s : str) : bool :=
  match split COLON s with
  | [h; m; sec] =>
      (2 <=? length h)%nat && forallb ascii_digit h
      && (length m =? 2)%nat && forallb ascii_digit m
      && (length sec =? 2)%nat && forallb ascii_digit sec
  | _ => false
  end.

(** A line whose duration is not of the fixed format. *)
Definition lenient_line : str :=
  u "2024-01-01 09:00:00" ++ [TAB] ++ u "1:2:3" ++ [TAB] ++ u "'x'".

(** The argument checks of the [datetime] constructor, as propositions. *)
Record datetime_ok (t : datetime) : Prop := {
  ok_year : 1 <= year t <= 9999;
  ok_month : 1 <= month t <= 12;
  ok_day : 1 <= day t <= days_in_month (year t) (month t);
  ok_hour : 0 <= hour t <= 23;
  ok_minute : 0 <= minute t <= 59;
  ok_second : 0 <= second t <= 59;
  ok_microsecond : 0 <= microsecond t <= 999999
}.

(** ** The commands that change the store: [start], [end], [switch]

    What a run of a command does: the text it echoes and the store it
    leaves, or the exception that ends it.  [click.edit()] gives the text
    of the editor, or [None] when the editor was left without saving; the
    call of [strip] on [None] then raises [AttributeError]. *)

Inductive ran :=
| Echo (text : str) (fs : gmap string str)
| Crash (e : exn)
| CrashAttributeError.

Definition NOT_TRACKING : str := RED ++ u "Timer is not currently tracking." ++ END.

(** The command [start]. *)
Definition start (now : datetime) (fs : gmap string str) : ran :=
  let '(success, fs) := RecordStore.start now fs in
  if success then Echo (GRAY ++ u "Timer started!" ++ END) fs
  else Echo (RED ++ u "Timer already started." ++ END) fs.

Section Sessions.
Context {R : Runtime}.

(** The command [end]: [now] is the clock when [record.current()] reads
    it, [edited] what [click.edit()] returns. *)
Definition end_ (now : datetime) (edited : option str) (fs : gmap string str) : ran :=
  match RecordStore.current now fs with
  | Raise e => Crash e
  | Ok (None, _) => Echo NOT_TRACKING fs
  | Ok (Some start, delta) =>
      match edited with
      | None => CrashAttributeError
      | Some text =>
          let desc := strip text in
          let fs := RecordStore.write start delta (VStr desc) fs in
          let fs := RecordStore.stop fs in
          Echo (GRAY ++ u "Timer stopped!" ++ END) fs
      end
  end.

(** The command [switch]: [now] is the clock at [record.current()],
    [later] the clock at the [record.start()] that follows. *)
Definition switch (now : datetime) (edited : option str) (later : datetime)
    (fs : gmap string str) : ran :=
  match RecordStore.current now fs with
  | Raise e => Crash e
  | Ok (None, _) => Echo NOT_TRACKING fs
  | Ok (Some start, delta) =>
      match edited with
      | None => CrashAttributeError
      | Some text =>
          let desc := strip text in
          let fs := RecordStore.write start delta (VStr desc) fs in
          let fs := RecordStore.stop fs in
          let fs := (RecordStore.start later fs).2 in
          Echo (u "Switching timer...") fs
      end
  end.

End Sessions.

(** A text that is empty or ends with a line feed: the next text
    appended to it starts a line of its own. *)
Definition terminated (text : str) : Prop := text = [] \/ last text = Some LF.

(** The number of separators of a listing. *)
Fixpoint separators {R : Runtime} (items : list log_item) : nat :=
  match items with
  | [] => 0
  | Separator :: rest => S (separators rest)
  | Line _ :: rest => separators rest
  end.

(** The number of neighbours in [es] whose calendar dates differ. *)
Fixpoint date_changes {R : Runtime} (es : list entry) : nat :=
  match es with
  | a :: (b :: _) as rest =>
      (if bool_decide (date_of a.1.1 = date_of b.1.1) then 0 else 1)%nat
      + date_changes rest
  | _ => 0%nat
  end.

Definition day1_midnight : datetime :=
  {| year := 2024; month := 1; day := 1;
     hour := 0; minute := 0; second := 0; microsecond := 0 |}.

(** The store after [start] at 09:00:00 on a new directory, and what an
    editor may hand back. *)
Definition tracking_since_9am : gmap string str :=
  (RecordStore.start day1_9am (RecordStore.init ∅)).2.

Definition edited_text : str := u "  did X" ++ [SPACE; LF].

(** The first moment of the calendar date of [t]. *)
Definition midnight (t : datetime) : datetime :=
  {| year := year t; month := month t; day := day t;
     hour := 0; minute := 0; second := 0; microsecond := 0 |}.

(** The format of the [--date] option of [show]. *)
Definition DAY_FORMAT : str := u "%Y-%m-%d".

(** * Proofs *)

#[local] Arguments Z.eqb : simpl never.
#[local] Arguments Z.leb : simpl never.
#[local] Arguments Z.ltb : simpl never.

(** Decides the integer comparisons of the goal one after the other. *)
Ltac zbool :=
  repeat match goal with
  | |- context [?a =? ?b] => destruct (Z.eqb_spec a b); try lia; cbn [andb orb negb]
  | |- context [?a <=? ?b] => destruct (Z.leb_spec a b); try lia; cbn [andb orb negb]
  | |- context [?a <? ?b] => destruct (Z.ltb_spec a b); try lia; cbn [andb orb negb]
  end.

(** ** Digits *)

Section NumberFacts.
Context {R : Runtime}.

Lemma digit_value_ascii d : 0 <= d <= 9 -> digit_value (48 + d) = Some d.
Proof. intros Hd. unfold digit_value. zbool; try (f_equal; lia). Qed.

Lemma is_digit_ascii d : 0 <= d <= 9 -> is_digit (48 + d) = true.
Proof. intros Hd. unfold is_digit. by rewrite digit_value_ascii. Qed.

Lemma isspace_digit d : 0 <= d <= 9 -> isspace (48 + d) = false.
Proof. intros Hd. unfold isspace. zbool; reflexivity || lia. Qed.

Lemma int_space_digit d : 0 <= d <= 9 -> int_space (48 + d) = false.
Proof. intros Hd. unfold int_space. zbool; reflexivity || lia. Qed.

Lemma digits_fuel_small fuel n : 0 <= n < 10 -> digits_fuel fuel n = [48 + n].
Proof.
  intros Hn. destruct fuel as [|fuel]; simpl.
  - by rewrite Z.mod_small by lia.
  - zbool; reflexivity || lia.
Qed.

Lemma zero_pad_2 n : 0 <= n < 100 -> zero_pad 2 n = dec_fixed 2 n.
Proof.
  intros Hn. unfold zero_pad, decimal_digits.
  destruct (Z.ltb_spec n 0) as [?|_]; [lia|].
  rewrite Z.abs_eq by lia. cbn [dec_fixed app].
  destruct (Z.ltb_spec n 10) as [Hlt|Hge].
  - rewrite digits_fuel_small by lia. cbn.
    rewrite Z.div_small, Z.mod_0_l, (Z.mod_small n) by lia. reflexivity.
  - assert (0 < Z.log2 n) by (apply Z.log2_pos; lia).
    destruct (Z.to_nat (Z.log2 n)) as [|fuel] eqn:Hfuel; [lia|].
    cbn [digits_fuel]. destruct (Z.ltb_spec n 10); [lia|].
    rewrite digits_fuel_small by (split; [apply Z.div_pos|apply Z.div_lt_upper_bound]; lia).
    cbn. rewrite (Z.mod_small (n / 10)); [done|].
    split; [apply Z.div_pos|apply Z.div_lt_upper_bound]; lia.
Qed.

(** [int] reads back what a field of fixed width holds. *)
Lemma py_int_2 n : 0 <= n < 100 -> py_int (dec_fixed 2 n) = Ok n.
Proof.
  intros Hn. cbn [dec_fixed app].
  assert (Ha : 0 <= n / 10 mod 10 <= 9) by (pose proof (Z.mod_pos_bound (n / 10) 10); lia).
  assert (Hb : 0 <= n mod 10 <= 9) by (pose proof (Z.mod_pos_bound n 10); lia).
  unfold py_int. cbn [skip_int_space]. rewrite int_space_digit by done.
  destruct (Z.eqb_spec (48 + n / 10 mod 10) MINUS) as [E|_]; [unfold MINUS in E; lia|].
  destruct (Z.eqb_spec (48 + n / 10 mod 10) PLUS) as [E|_]; [unfold PLUS in E; lia|].
  cbn [int_body]. rewrite !digit_value_ascii by done. cbn [skip_int_space].
  unfold int_max_str_digits. cbn. f_equal.
  rewrite (Z.mod_small (n / 10)) by (split; [apply Z.div_pos|apply Z.div_lt_upper_bound]; lia).
  pose proof (Z.div_mod n 10). lia.
Qed.

Lemma py_int_4 n : 0 <= n < 10000 -> py_int (dec_fixed 4 n) = Ok n.
Proof.
  intros Hn. cbn [dec_fixed app].
  assert (Hd : forall x, 0 <= x mod 10 <= 9) by (intros x; pose proof (Z.mod_pos_bound x 10); lia).
  unfold py_int. cbn [skip_int_space]. rewrite int_space_digit by done.
  destruct (Z.eqb_spec (48 + n / 10 / 10 / 10 mod 10) MINUS) as [E|_];
    [unfold MINUS in E; pose proof (Hd (n / 10 / 10 / 10)); lia|].
  destruct (Z.eqb_spec (48 + n / 10 / 10 / 10 mod 10) PLUS) as [E|_];
    [unfold PLUS in E; pose proof (Hd (n / 10 / 10 / 10)); lia|].
  cbn [int_body]. rewrite !digit_value_ascii by done. cbn [skip_int_space].
  unfold int_max_str_digits. cbn. f_equal.
  Z.div_mod_to_equations. lia.
Qed.

End NumberFacts.

(** ** The regular expression of [strptime] on what [strftime] writes *)

Section RegexFacts.
Context {R : Runtime}.

Lemma first_alt_take2 {A} alts a b rest (k : str -> str -> option A) x :
  take2 alts a b = true ->
  k [a; b] rest = Some x ->
  first_alt alts (a :: b :: rest) k = Some x.
Proof.
  intros Htake Hk. induction alts as [|alt alts IH]; [discriminate|].
  destruct alt as [|k1 [|k2 [|k3 alt]]]; try discriminate.
  - cbn [take2] in Htake. cbn [first_alt match_alt].
    destruct (cls_test k1 a); [discriminate|]. by apply IH.
  - cbn [take2] in Htake. cbn [first_alt match_alt].
    destruct (cls_test k1 a); cbn [andb] in Htake; [|by apply IH].
    destruct (cls_test k2 b); [|by apply IH].
    by rewrite Hk.
Qed.

Lemma re_match_group2 d items a b rest f r :
  take2 (directive_alts d) a b = true ->
  re_match items rest = Some (f, r) ->
  re_match (IGroup d :: items) (a :: b :: rest) = Some ((d, [a; b]) :: f, r).
Proof.
  intros Htake Hrest. cbn [re_match].
  apply first_alt_take2; [done|]. by rewrite Hrest.
Qed.

Lemma re_match_lit c items s res :
  re_match items s = res -> re_match (ILit c :: items) (c :: s) = res.
Proof. intros <-. cbn [re_match]. by rewrite Z.eqb_refl. Qed.

Lemma re_match_space items x s res :
  isspace x = false ->
  re_match items (x :: s) = res ->
  re_match (ISpaces :: items) (SPACE :: x :: s) = res.
Proof.
  intros Hx <-. cbn [re_match].
  replace (isspace SPACE) with true by reflexivity.
  cbn [spaces_star]. by rewrite Hx.
Qed.

Lemma re_match_year items a b c d rest f r :
  is_digit a = true -> is_digit b = true -> is_digit c = true -> is_digit d = true ->
  re_match items rest = Some (f, r) ->
  re_match (IGroup DY :: items) (a :: b :: c :: d :: rest)
  = Some ((DY, [a; b; c; d]) :: f, r).
Proof.
  intros Ha Hb Hc Hd Hrest.
  cbn [re_match directive_alts first_alt match_alt cls_test].
  by rewrite Ha, Hb, Hc, Hd, Hrest.
Qed.

(** The two digits of a value fall in the first alternative that fits. *)
Ltac take2_digits n :=
  cbn [dec_fixed app take2 directive_alts cls_test];
  let Ha := fresh in let Hb := fresh in
  assert (Ha : 0 <= n / 10 < 10) by (split; [apply Z.div_pos|apply Z.div_lt_upper_bound]; lia);
  rewrite (Z.mod_small (n / 10)) by lia;
  assert (Hb := Z.mod_pos_bound n 10 eq_refl);
  pose proof (Z.div_mod n 10 ltac:(lia));
  rewrite ?is_digit_ascii by lia;
  zbool; reflexivity || lia.

Lemma take2_month n : 1 <= n <= 12 ->
  take2 (directive_alts Dm) (48 + n / 10 mod 10) (48 + n mod 10) = true.
Proof. intros Hn. take2_digits n. Qed.

Lemma take2_day n : 1 <= n <= 31 ->
  take2 (directive_alts Dd) (48 + n / 10 mod 10) (48 + n mod 10) = true.
Proof. intros Hn. take2_digits n. Qed.

Lemma take2_hour n : 0 <= n <= 23 ->
  take2 (directive_alts DH) (48 + n / 10 mod 10) (48 + n mod 10) = true.
Proof. intros Hn. take2_digits n. Qed.

Lemma take2_minute n : 0 <= n <= 59 ->
  take2 (directive_alts DM) (48 + n / 10 mod 10) (48 + n mod 10) = true.
Proof. intros Hn. take2_digits n. Qed.

Lemma take2_second n : 0 <= n <= 59 ->
  take2 (directive_alts DS) (48 + n / 10 mod 10) (48 + n mod 10) = true.
Proof. intros Hn. take2_digits n. Qed.

End RegexFacts.

(** ** Dates *)

Lemma days_in_month_bound y m : days_in_month y m <= 31.
Proof.
  unfold days_in_month. destruct ((m =? 2) && is_leap y); [lia|].
  destruct (Z.to_nat m) as [|[|[|[|[|[|[|[|[|[|[|[|[|k]]]]]]]]]]]]];
    cbn; try lia.
  destruct k; cbn; lia.
Qed.


Lemma valid_datetimeb_ok t : valid_datetimeb t = true <-> datetime_ok t.
Proof.
  unfold valid_datetimeb. rewrite !andb_true_iff, !Z.leb_le.
  split.
  - intros H. split; lia.
  - intros [? ? ? ? ? ? ?]. lia.
Qed.

Lemma valid_whole_second t :
  valid_datetimeb t = true -> valid_datetimeb (whole_second t) = true.
Proof.
  rewrite !valid_datetimeb_ok. intros [? ? ? ? ? ? ?].
  split; cbn; lia.
Qed.

Lemma datetime_new_fields t :
  valid_datetimeb t = true ->
  datetime_new (year t) (month t) (day t) (hour t) (minute t) (second t)
  = Ok (whole_second t).
Proof.
  intros Hv. unfold datetime_new.
  change {| year := year t; month := month t; day := day t; hour := hour t;
            minute := minute t; second := second t; microsecond := 0 |}
    with (whole_second t).
  by rewrite valid_whole_second.
Qed.

Lemma datetime_new_valid y m d hh mm ss t :
  datetime_new y m d hh mm ss = Ok t -> valid_datetimeb t = true.
Proof.
  unfold datetime_new.
  destruct (valid_datetimeb _) eqn:Hv; [|discriminate].
  by intros [= <-].
Qed.

Section StrptimeFacts.
Context {R : Runtime}.

Lemma compile_DATE_FORMAT :
  compile_format false DATE_FORMAT
  = Some [IGroup DY; ILit 45; IGroup Dm; ILit 45; IGroup Dd; ISpaces;
          IGroup DH; ILit 58; IGroup DM; ILit 58; IGroup DS].
Proof. reflexivity. Qed.

Lemma strftime_DATE_FORMAT t :
  strftime t DATE_FORMAT
  = dec_fixed 4 (year t) ++ 45 :: dec_fixed 2 (month t) ++ 45 :: dec_fixed 2 (day t)
    ++ 32 :: dec_fixed 2 (hour t) ++ 58 :: dec_fixed 2 (minute t)
    ++ 58 :: dec_fixed 2 (second t).
Proof.
  cbv -[dec_fixed app Z.add Z.div Z.modulo year month day hour minute second].
  by rewrite app_nil_r.
Qed.

(** Every result of [strptime] has passed the checks of the constructor. *)
Lemma strptime_valid s fmt t : strptime s fmt = Ok t -> valid_datetimeb t = true.
Proof.
  unfold strptime.
  destruct (compile_format false fmt) as [items|]; [|discriminate].
  destruct (re_match items s) as [[found [|? ?]]|]; try discriminate.
  destruct (group DY found 1900); [|discriminate].
  destruct (group Dm found 1); [|discriminate].
  destruct (group Dd found 1); [|discriminate].
  destruct (group DH found 0); [|discriminate].
  destruct (group DM found 0); [|discriminate].
  destruct (group DS found 0); [|discriminate].
  cbn [bind]. apply datetime_new_valid.
Qed.

(** Reading back a time stamp gives the time, to the second. *)
Lemma strptime_strftime t :
  valid_datetimeb t = true ->
  strptime (strftime t DATE_FORMAT) DATE_FORMAT = Ok (whole_second t).
Proof.
  intros Hv. pose proof Hv as [Hy Hm Hd Hh Hmi Hs _]%valid_datetimeb_ok.
  pose proof (days_in_month_bound (year t) (month t)) as Hdim.
  assert (Hdig : forall x, 0 <= x mod 10 <= 9)
    by (intros x; pose proof (Z.mod_pos_bound x 10); lia).
  pose proof (py_int_4 (year t) ltac:(lia)) as Hpy.
  pose proof (py_int_2 (month t) ltac:(lia)) as Hpm.
  pose proof (py_int_2 (day t) ltac:(lia)) as Hpd.
  pose proof (py_int_2 (hour t) ltac:(lia)) as Hph.
  pose proof (py_int_2 (minute t) ltac:(lia)) as Hpmi.
  pose proof (py_int_2 (second t) ltac:(lia)) as Hps.
  unfold strptime. rewrite compile_DATE_FORMAT, strftime_DATE_FORMAT.
  cbn [dec_fixed app] in *.
  erewrite re_match_year; try (apply is_digit_ascii, Hdig); cycle 1.
  - apply re_match_lit, re_match_group2; [apply take2_month; lia|].
    apply re_match_lit, re_match_group2; [apply take2_day; lia|].
    apply re_match_space; [apply isspace_digit, Hdig|].
    apply re_match_group2; [apply take2_hour; lia|].
    apply re_match_lit, re_match_group2; [apply take2_minute; lia|].
    apply re_match_lit, re_match_group2; [apply take2_second; lia|].
    reflexivity.
  - cbn [group directive_eqb].
    rewrite Hpy, Hpm, Hpd, Hph, Hpmi, Hps. cbn [bind].
    by apply datetime_new_fields.
Qed.

End StrptimeFacts.

(** ** Splitting and stripping *)

Lemma break_at_sep sep x r :
  Forall (fun c => c <> sep) x -> break_at sep (x ++ sep :: r) = (x, Some r).
Proof.
  induction 1 as [|c x Hc _ IH]; cbn [break_at app].
  - by rewrite Z.eqb_refl.
  - destruct (Z.eqb_spec c sep); [done|]. by rewrite IH.
Qed.

Lemma break_at_none sep x :
  Forall (fun c => c <> sep) x -> break_at sep x = (x, None).
Proof.
  induction 1 as [|c x Hc _ IH]; cbn [break_at]; [done|].
  destruct (Z.eqb_spec c sep); [done|]. by rewrite IH.
Qed.

Lemma split_max_sep sep n x r :
  Forall (fun c => c <> sep) x ->
  split_max sep (S n) (x ++ sep :: r) = x :: split_max sep n r.
Proof. intros Hx. cbn [split_max]. by rewrite break_at_sep. Qed.

Lemma split_max_last sep n x :
  Forall (fun c => c <> sep) x -> split_max sep n x = [x].
Proof. intros Hx. destruct n; cbn [split_max]; [done|]. by rewrite break_at_none. Qed.

Lemma split_max_3 sep n a b c :
  (2 <= n)%nat ->
  Forall (fun x => x <> sep) a -> Forall (fun x => x <> sep) b ->
  Forall (fun x => x <> sep) c ->
  split_max sep n (a ++ sep :: b ++ sep :: c) = [a; b; c].
Proof.
  intros Hn Ha Hb Hc. destruct n as [|[|n]]; [lia|lia|].
  by rewrite !split_max_sep, split_max_last.
Qed.

Lemma lstrip_nonspace c s : isspace c = false -> lstrip (c :: s) = c :: s.
Proof. intros Hc. cbn [lstrip]. by rewrite Hc. Qed.

Lemma rstrip_nonspace s c : isspace c = false -> rstrip (s ++ [c]) = s ++ [c].
Proof.
  intros Hc. unfold rstrip. rewrite rev_app_distr. cbn [rev app].
  rewrite lstrip_nonspace by done. cbn [rev]. by rewrite rev_involutive.
Qed.

Lemma rstrip_space s c : isspace c = true -> rstrip (s ++ [c]) = rstrip s.
Proof.
  intros Hc. unfold rstrip. rewrite rev_app_distr. cbn [rev app lstrip].
  by rewrite Hc.
Qed.

(** A line that starts and ends with something other than white space
    loses nothing but its line end. *)
Lemma strip_line c s q :
  isspace c = false -> isspace q = false ->
  strip (c :: s ++ [q] ++ [LF]) = c :: s ++ [q]
  /\ strip (c :: s ++ [q]) = c :: s ++ [q].
Proof.
  intros Hc Hq. unfold strip. rewrite !lstrip_nonspace by done. split.
  - rewrite app_assoc, app_comm_cons, rstrip_space by reflexivity.
    by rewrite app_comm_cons, rstrip_nonspace.
  - by rewrite app_comm_cons, rstrip_nonspace.
Qed.

Lemma dec_fixed_digits w n : Forall (fun c => 48 <= c <= 57) (dec_fixed w n).
Proof.
  revert n. induction w as [|w IH]; intros n; cbn [dec_fixed]; [constructor|].
  apply Forall_app. split; [apply IH|].
  constructor; [|constructor]. pose proof (Z.mod_pos_bound n 10). lia.
Qed.

Lemma dec_fixed_not sep w n :
  ~ 48 <= sep <= 57 -> Forall (fun c => c <> sep) (dec_fixed w n).
Proof.
  intros Hsep. eapply Forall_impl; [apply dec_fixed_digits|].
  cbn. intros c Hc ->. lia.
Qed.

(** ** Durations *)

Section DurationFacts.
Context {R : Runtime}.

Lemma dump_td_digits td :
  0 <= seconds td < 86400 ->
  dump_td td
  = dec_fixed 2 (seconds td / 3600) ++ [COLON]
    ++ dec_fixed 2 (seconds td mod 3600 / 60) ++ [COLON]
    ++ dec_fixed 2 (seconds td mod 60).
Proof.
  intros Hs. unfold dump_td. change (60 ^ 2) with 3600.
  rewrite !zero_pad_2; [done|..]; Z.div_mod_to_equations; lia.
Qed.

(** [dump_td] writes the seconds of the last day only, and [parse_td]
    reads them back. *)
Lemma parse_dump_td td :
  0 <= seconds td < 86400 -> parse_td (dump_td td) = Ok (clock_part td).
Proof.
  intros Hs. rewrite dump_td_digits by done. unfold parse_td, split.
  cbn [app].
  rewrite split_max_3; try (apply dec_fixed_not; unfold COLON; lia); cycle 1.
  { repeat (rewrite length_app; cbn [length]). lia. }
  cbn [map_res].
  rewrite !py_int_2 by (Z.div_mod_to_equations; lia).
  cbn [bind]. unfold timedelta_hms, timedelta_new, clock_part.
  replace (seconds td / 3600 * 3600 + seconds td mod 3600 / 60 * 60 + seconds td mod 60)
    with (seconds td) by (Z.div_mod_to_equations; lia).
  change (0 / 1000000) with 0. change (0 mod 1000000) with 0.
  rewrite Z.add_0_r, (Z.div_small (seconds td)), (Z.mod_small (seconds td)) by lia.
  reflexivity.
Qed.

End DurationFacts.

(** ** String literals *)

Lemma hex_value_digit d : 0 <= d < 16 -> hex_value (hex_digit d) = Some d.
Proof.
  intros Hd. unfold hex_value, hex_digit.
  destruct (Z.ltb_spec d 10); zbool; f_equal; lia.
Qed.

Lemma hex_digit_range d :
  0 <= d < 16 -> 48 <= hex_digit d <= 57 \/ 97 <= hex_digit d <= 102.
Proof. intros Hd. unfold hex_digit. destruct (Z.ltb_spec d 10); lia. Qed.

Lemma scan_hex_prefix q w k acc c rest :
  (1 <= k)%nat ->
  scan_literal q (LHex (w + k) acc) (hex_fixed w c ++ rest)
  = scan_literal q (LHex k (acc * 16 ^ Z.of_nat w + c mod 16 ^ Z.of_nat w)) rest.
Proof.
  revert k c rest. induction w as [|w IH]; intros k c rest Hk.
  - cbn [hex_fixed app Nat.add]. change (16 ^ Z.of_nat 0) with 1.
    by rewrite Z.mod_1_r, Z.mul_1_r, Z.add_0_r.
  - cbn [hex_fixed]. rewrite <- app_assoc. cbn [app].
    replace (S w + k)%nat with (w + S k)%nat by lia.
    rewrite IH by lia. cbn [scan_literal].
    rewrite hex_value_digit by (apply Z.mod_pos_bound; lia).
    destruct k as [|k]; [lia|]. f_equal. f_equal.
    rewrite Nat2Z.inj_succ, Z.pow_succ_r by lia.
    rewrite (Z.rem_mul_r c 16 (16 ^ Z.of_nat w)) by lia. lia.
Qed.

Lemma scan_hex q w c rest :
  0 <= c < 16 ^ Z.of_nat (S w) -> c <= 1114111 ->
  scan_literal q (LHex (S w) 0) (hex_fixed (S w) c ++ rest)
  = emit c (scan_literal q LNormal rest).
Proof.
  intros Hc Hmax. cbn [hex_fixed]. rewrite <- app_assoc. cbn [app].
  replace (S w) with (w + 1)%nat at 1 by lia.
  rewrite scan_hex_prefix by lia. cbn [scan_literal].
  rewrite hex_value_digit by (apply Z.mod_pos_bound; lia).
  assert (Hval : (0 * 16 ^ Z.of_nat w + c / 16 mod 16 ^ Z.of_nat w) * 16 + c mod 16 = c).
  { rewrite Nat2Z.inj_succ, Z.pow_succ_r in Hc by lia.
    rewrite (Z.mod_small (c / 16)).
    - pose proof (Z.div_mod c 16). lia.
    - split; [apply Z.div_pos; lia|apply Z.div_lt_upper_bound; lia]. }
  rewrite Hval. destruct (Z.ltb_spec 1114111 c); [lia|done].
Qed.

Lemma scan_raw q c rest :
  c <> q -> c <> BACKSLASH -> c <> LF -> c <> CR ->
  scan_literal q LNormal (c :: rest) = emit c (scan_literal q LNormal rest).
Proof.
  intros Hq Hb Hl Hr. cbn [scan_literal].
  destruct (Z.eqb_spec c q); [done|].
  destruct (Z.eqb_spec c BACKSLASH); [done|].
  destruct (Z.eqb_spec c LF); [done|].
  by destruct (Z.eqb_spec c CR).
Qed.

Lemma scan_escape_hex q rest :
  q = SQUOTE \/ q = DQUOTE ->
  (scan_literal q LNormal (BACKSLASH :: 120 :: rest)
   = scan_literal q (LHex 2 0) rest)
  /\ (scan_literal q LNormal (BACKSLASH :: 117 :: rest)
      = scan_literal q (LHex 4 0) rest)
  /\ (scan_literal q LNormal (BACKSLASH :: 85 :: rest)
      = scan_literal q (LHex 8 0) rest).
Proof.
  unfold SQUOTE, DQUOTE. intros Hq.
  cbn [scan_literal]. unfold BACKSLASH, LF, CR, simple_escape, BACKSLASH, SQUOTE, DQUOTE, TAB, LF, CR.
  destruct Hq as [-> | ->]; zbool; auto.
Qed.

Section ReprFacts.
Context {R : Runtime}.

Lemma scan_repr_char q c rest :
  q = SQUOTE \/ q = DQUOTE -> code_point c ->
  scan_literal q LNormal (repr_char q c ++ rest) = emit c (scan_literal q LNormal rest).
Proof.
  intros Hq Hc.
  destruct (scan_escape_hex q (hex_fixed 2 c ++ rest) Hq) as (Hx & _ & _).
  destruct (scan_escape_hex q (hex_fixed 4 c ++ rest) Hq) as (_ & Hu & _).
  destruct (scan_escape_hex q (hex_fixed 8 c ++ rest) Hq) as (_ & _ & HU).
  revert Hx Hu HU.
  unfold SQUOTE, DQUOTE, code_point in Hq, Hc.
  unfold repr_char, BACKSLASH, TAB, LF, CR. intros Hx Hu HU.
  destruct (Z.eqb_spec c q) as [->|Hcq]; cbn [orb].
  { cbn [app scan_literal]. unfold BACKSLASH, LF, CR, simple_escape, BACKSLASH, SQUOTE, DQUOTE.
    destruct Hq as [-> | ->]; zbool; reflexivity || lia. }
  destruct (Z.eqb_spec c 92) as [->|Hc92]; cbn [orb].
  { cbn [app scan_literal]. unfold BACKSLASH, LF, CR, simple_escape, BACKSLASH, SQUOTE, DQUOTE.
    destruct Hq as [-> | ->]; zbool; reflexivity || lia. }
  destruct (Z.eqb_spec c 9) as [->|Hc9].
  { cbn [app scan_literal]. unfold BACKSLASH, LF, CR, TAB, simple_escape, BACKSLASH, SQUOTE, DQUOTE.
    destruct Hq as [-> | ->]; zbool; reflexivity || lia. }
  destruct (Z.eqb_spec c 10) as [->|Hc10].
  { cbn [app scan_literal]. unfold BACKSLASH, LF, CR, TAB, simple_escape, BACKSLASH, SQUOTE, DQUOTE.
    destruct Hq as [-> | ->]; zbool; reflexivity || lia. }
  destruct (Z.eqb_spec c 13) as [->|Hc13].
  { cbn [app scan_literal]. unfold BACKSLASH, LF, CR, TAB, simple_escape, BACKSLASH, SQUOTE, DQUOTE.
    destruct Hq as [-> | ->]; zbool; reflexivity || lia. }
  destruct (Z.ltb_spec c 32); cbn [orb].
  { cbn [app]. rewrite Hx. apply scan_hex; cbn; lia. }
  destruct (Z.eqb_spec c 127).
  { cbn [app]. rewrite Hx. apply scan_hex; cbn; lia. }
  destruct (Z.ltb_spec c 127).
  { cbn [app]. by apply scan_raw. }
  destruct (isprintable c && negb (is_surrogate c)).
  { cbn [app]. by apply scan_raw. }
  destruct (Z.leb_spec c 255).
  { cbn [app]. rewrite Hx. apply scan_hex; cbn; lia. }
  destruct (Z.leb_spec c 65535).
  { cbn [app]. rewrite Hu. apply scan_hex; cbn; lia. }
  cbn [app]. rewrite HU. apply scan_hex; cbn; lia.
Qed.

Lemma scan_repr_body q s :
  q = SQUOTE \/ q = DQUOTE -> Forall code_point s ->
  scan_literal q LNormal (flat_map (repr_char q) s ++ [q]) = Plain (Ok s).
Proof.
  intros Hq Hs. induction Hs as [|c s Hc _ IH]; cbn [flat_map app].
  - cbn [scan_literal]. by rewrite Z.eqb_refl.
  - rewrite <- app_assoc, scan_repr_char, IH by done. reflexivity.
Qed.

Lemma hex_fixed_visible w c : Forall visible (hex_fixed w c).
Proof.
  revert c. induction w as [|w IH]; intros c; cbn [hex_fixed]; [constructor|].
  apply Forall_app. split; [apply IH|]. constructor; [|constructor].
  pose proof (hex_digit_range (c mod 16) (Z.mod_pos_bound c 16 eq_refl)).
  unfold visible, is_surrogate. split; [lia|]. zbool; reflexivity || lia.
Qed.

Lemma visible_ascii x : 32 <= x < 128 -> visible x.
Proof. intros Hx. unfold visible, is_surrogate. split; [lia|]. zbool; reflexivity || lia. Qed.

Lemma repr_char_visible q c :
  q = SQUOTE \/ q = DQUOTE -> Forall visible (repr_char q c).
Proof.
  unfold SQUOTE, DQUOTE. intros Hq. unfold repr_char, BACKSLASH, TAB, LF, CR.
  assert (Hesc : forall l w, 32 <= l < 128 -> Forall visible (92 :: l :: hex_fixed w c)).
  { intros l w Hl. repeat constructor; try apply visible_ascii; try lia.
    apply hex_fixed_visible. }
  destruct (Z.eqb_spec c q) as [->|Hcq]; cbn [orb].
  { repeat constructor; apply visible_ascii; lia. }
  destruct (Z.eqb_spec c 92) as [->|Hc92]; cbn [orb].
  { repeat constructor; apply visible_ascii; lia. }
  destruct (Z.eqb_spec c 9); [repeat constructor; apply visible_ascii; lia|].
  destruct (Z.eqb_spec c 10); [repeat constructor; apply visible_ascii; lia|].
  destruct (Z.eqb_spec c 13); [repeat constructor; apply visible_ascii; lia|].
  destruct (Z.ltb_spec c 32); cbn [orb]; [apply Hesc; lia|].
  destruct (Z.eqb_spec c 127); [apply Hesc; lia|].
  destruct (Z.ltb_spec c 127); [repeat constructor; apply visible_ascii; lia|].
  destruct (isprintable c) eqn:Hp; cbn [andb].
  - destruct (is_surrogate c) eqn:Hsur; cbn [negb].
    + destruct (Z.leb_spec c 255); [apply Hesc; lia|].
      destruct (Z.leb_spec c 65535); apply Hesc; lia.
    + repeat constructor; [lia|done].
  - destruct (Z.leb_spec c 255); [apply Hesc; lia|].
    destruct (Z.leb_spec c 65535); apply Hesc; lia.
Qed.

Lemma repr_char_head q c :
  exists x r, repr_char q c = x :: r /\ (x <> q \/ x = BACKSLASH).
Proof.
  unfold repr_char.
  destruct (Z.eqb_spec c q) as [->|Hcq]; cbn [orb]; [eauto|].
  repeat match goal with
  | |- context [if ?b then _ else _] => destruct b; [eauto|]
  end.
  eauto.
Qed.


Lemma repr_quote_cases s : repr_quote s = SQUOTE \/ repr_quote s = DQUOTE.
Proof. unfold repr_quote. destruct (_ && _); auto. Qed.

Lemma repr_str_visible s : Forall visible (repr_str s).
Proof.
  unfold repr_str. pose proof (repr_quote_cases s) as Hq.
  assert (visible (repr_quote s))
    by (apply visible_ascii; unfold SQUOTE, DQUOTE in Hq; lia).
  apply Forall_cons. split; [done|]. apply Forall_app. split; [|by apply Forall_cons].
  generalize dependent (repr_quote s). intros q Hq _.
  induction s as [|c s' IH]; cbn [flat_map]; [constructor|].
  apply Forall_app. split; [by apply repr_char_visible|apply IH].
Qed.

Lemma visible_no_nul_surrogate s :
  Forall visible s -> existsb (fun c => (c =? 0) || is_surrogate c) s = false.
Proof.
  induction 1 as [|c s [Hc Hsur] _ IH]; cbn [existsb]; [done|].
  rewrite Hsur, IH. by destruct (Z.eqb_spec c 0); [lia|].
Qed.

(** The scanner reads the text of [repr] back. *)
Lemma plain_literal_repr s :
  Forall code_point s -> plain_literal (repr_str s) = Plain (Ok s).
Proof.
  intros Hs. unfold plain_literal.
  rewrite visible_no_nul_surrogate by apply repr_str_visible.
  unfold repr_str. pose proof (repr_quote_cases s) as Hq.
  set (q := repr_quote s) in *.
  assert (Hblank : lstrip_blank (q :: flat_map (repr_char q) s ++ [q])
                   = q :: flat_map (repr_char q) s ++ [q]).
  { cbn [lstrip_blank]. unfold SPACE, TAB, SQUOTE, DQUOTE in *.
    destruct Hq as [-> | ->]; reflexivity. }
  rewrite Hblank.
  assert (Hquote : (q =? SQUOTE) || (q =? DQUOTE) = true).
  { destruct Hq as [-> | ->]; reflexivity. }
  rewrite Hquote, <- (scan_repr_body q s Hq Hs).
  destruct s as [|c s']; cbn [flat_map app]; [done|].
  destruct (repr_char_head q c) as (x & r & -> & Hx). cbn [app].
  destruct ((r ++ flat_map (repr_char q) s') ++ [q]) as [|y t]; [done|].
  destruct (Z.eqb_spec x q) as [->|_]; [|done].
  exfalso. unfold BACKSLASH, SQUOTE, DQUOTE in *. lia.
Qed.

Lemma literal_eval_repr s :
  Forall code_point s -> literal_eval (repr_str s) = Ok (VStr s).
Proof. intros Hs. unfold literal_eval. by rewrite plain_literal_repr. Qed.

End ReprFacts.

(** ** Log lines *)

Section CodecFacts.
Context {R : Runtime}.

Lemma visible_not x c : c < 32 -> visible x -> x <> c.
Proof. intros Hc [Hx _]. lia. Qed.

Lemma dec_fixed_visible w n : Forall visible (dec_fixed w n).
Proof.
  eapply Forall_impl; [apply dec_fixed_digits|].
  intros c Hc. apply visible_ascii. cbn in Hc. lia.
Qed.

Lemma strftime_visible t : Forall visible (strftime t DATE_FORMAT).
Proof.
  rewrite strftime_DATE_FORMAT.
  repeat first [ apply Forall_app; split; [apply dec_fixed_visible|]
               | apply Forall_cons; split; [by apply visible_ascii|]
               | apply dec_fixed_visible ].
Qed.

Lemma dump_td_visible td :
  0 <= seconds td < 86400 -> Forall visible (dump_td td).
Proof.
  intros Hs. rewrite dump_td_digits by done. unfold COLON.
  repeat first [ apply Forall_app; split; [apply dec_fixed_visible|]
               | apply Forall_cons; split; [by apply visible_ascii|]
               | apply dec_fixed_visible ].
Qed.

Lemma visible_no sep s : sep < 32 -> Forall visible s -> Forall (fun c => c <> sep) s.
Proof.
  intros Hsep Hs. eapply Forall_impl; [exact Hs|].
  intros c Hc. by apply visible_not.
Qed.

(** The three fields of a dumped line. *)
Lemma split_dump_entry start delta desc :
  0 <= seconds delta < 86400 ->
  split_max TAB 2 (dump_entry (start, delta, VStr desc))
  = [strftime start DATE_FORMAT; dump_td delta; repr_str desc].
Proof.
  intros Hs. unfold dump_entry. cbn [repr app].
  rewrite split_max_sep by (apply visible_no; [done|apply strftime_visible]).
  rewrite split_max_sep by (apply visible_no; [done|by apply dump_td_visible]).
  reflexivity.
Qed.

(** A dumped line starts with a digit and ends with a quote. *)
Lemma dump_entry_ends start delta desc :
  exists c s q, dump_entry (start, delta, VStr desc) = c :: s ++ [q]
                /\ isspace c = false /\ isspace q = false.
Proof.
  unfold dump_entry, repr, repr_str. rewrite strftime_DATE_FORMAT.
  set (q := repr_quote desc). set (body := flat_map (repr_char q) desc).
  set (date_rest := 45 :: dec_fixed 2 (month start) ++ 45 :: dec_fixed 2 (day start)
    ++ 32 :: dec_fixed 2 (hour start) ++ 58 :: dec_fixed 2 (minute start)
    ++ 58 :: dec_fixed 2 (second start)).
  set (td := dump_td delta).
  cbn [dec_fixed].
  set (y := year start).
  exists (48 + y / 10 / 10 / 10 mod 10),
    ([48 + y / 10 / 10 mod 10; 48 + y / 10 mod 10; 48 + y mod 10]
       ++ date_rest ++ [TAB] ++ td ++ [TAB] ++ q :: body), q.
  split; [|split].
  - clearbody date_rest td body. cbn [app]. do 4 f_equal.
    repeat (rewrite <- app_assoc; cbn [app]). reflexivity.
  - apply isspace_digit. pose proof (Z.mod_pos_bound (y / 10 / 10 / 10) 10). lia.
  - destruct (repr_quote_cases desc) as [Hq|Hq]; subst q; by rewrite Hq.
Qed.

(** Decoding a dumped line, with or without its line end: the entry comes
    back, the time stamp to the second and the duration to the second
    within the day. *)
Lemma parse_dump_entry start delta desc :
  valid_datetimeb start = true ->
  0 <= seconds delta < 86400 ->
  Forall code_point desc ->
  parse_entry (dump_entry (start, delta, VStr desc))
  = Ok (whole_second start, clock_part delta, VStr desc)
  /\ parse_entry (dump_entry (start, delta, VStr desc) ++ [LF])
     = Ok (whole_second start, clock_part delta, VStr desc).
Proof.
  intros Hv Hs Hdesc.
  destruct (dump_entry_ends start delta desc) as (c & s & q & Hline & Hc & Hq).
  destruct (strip_line c s q Hc Hq) as [Hstrip_lf Hstrip].
  assert (Hfields : forall line,
    strip line = dump_entry (start, delta, VStr desc) ->
    parse_entry line = Ok (whole_second start, clock_part delta, VStr desc)).
  { intros line Hl. unfold parse_entry.
    rewrite Hl, split_dump_entry by done.
    rewrite strptime_strftime, parse_dump_td, literal_eval_repr by done.
    reflexivity. }
  split; apply Hfields; rewrite Hline.
  - done.
  - cbn [app]. by rewrite <- app_assoc.
Qed.

End CodecFacts.

(** ** Lines of a text file *)

Lemma translate_newlines_id s :
  Forall (fun c => c <> CR) s -> translate_newlines s = s.
Proof.
  induction 1 as [|c s Hc _ IH]; cbn [translate_newlines]; [done|].
  destruct (Z.eqb_spec c CR); [done|]. by rewrite IH.
Qed.

Lemma lines_from_line cur l rest :
  Forall (fun c => c <> LF) l ->
  lines_from cur (l ++ LF :: rest) = (rev cur ++ l ++ [LF]) :: lines_from [] rest.
Proof.
  intros Hl. revert cur. induction Hl as [|c l Hc _ IH]; intros cur; cbn [app lines_from].
  - rewrite Z.eqb_refl. reflexivity.
  - destruct (Z.eqb_spec c LF); [done|]. rewrite IH. cbn [rev].
    by rewrite <- app_assoc.
Qed.

(** A text made of lines, each ended by a line feed, is read back line by
    line. *)
Lemma readlines_concat (ls : list str) :
  Forall (Forall (fun c => c <> LF /\ c <> CR)) ls ->
  readlines (concat (map (fun l => l ++ [LF]) ls)) = map (fun l => l ++ [LF]) ls.
Proof.
  intros Hls. unfold readlines. rewrite translate_newlines_id.
  - induction Hls as [|l ls Hl _ IH]; cbn [map concat]; [done|].
    rewrite <- app_assoc. cbn [app].
    rewrite lines_from_line, IH; [done|].
    eapply Forall_impl; [exact Hl|]. by intros c [? _].
  - induction Hls as [|l ls Hl _ IH]; cbn [map concat]; [constructor|].
    apply Forall_app. split; [|done]. apply Forall_app. split.
    + eapply Forall_impl; [exact Hl|]. by intros c [_ ?].
    + by repeat constructor.
Qed.

Lemma map_res_map {A B C} (f : B -> res C) (g : A -> B) (h : A -> C) xs :
  Forall (fun x => f (g x) = Ok (h x)) xs ->
  map_res f (map g xs) = Ok (map h xs).
Proof.
  induction 1 as [|x xs Hx _ IH]; cbn [map map_res]; [done|].
  by rewrite Hx, IH.
Qed.

(** ** Clock arithmetic *)

Lemma timedelta_new_spec d s us :
  Z.abs (d + (s + us / 1000000) / 86400) <= 999999999 ->
  exists td, timedelta_new d s us = Ok td
    /\ normal_td td
    /\ td_micros td = (d * 86400 + s) * 1000000 + us
    /\ days td = d + (s + us / 1000000) / 86400.
Proof.
  intros Hd. unfold timedelta_new.
  destruct (Z.ltb_spec 999999999 (Z.abs (d + (s + us / 1000000) / 86400))); [lia|].
  eexists. split; [reflexivity|]. unfold normal_td, td_micros. cbn.
  repeat split; try (Z.div_mod_to_equations; lia).
Qed.

Lemma days_before_month_day y m d :
  1 <= m <= 12 -> 1 <= d <= days_in_month y m ->
  1 <= days_before_month y m + d <= 365 + (if is_leap y then 1 else 0).
Proof.
  intros Hm. unfold days_in_month, days_before_month.
  assert (Hcases : m = 1 \/ m = 2 \/ m = 3 \/ m = 4 \/ m = 5 \/ m = 6 \/ m = 7
                   \/ m = 8 \/ m = 9 \/ m = 10 \/ m = 11 \/ m = 12) by lia.
  destruct (is_leap y);
    destruct Hcases as [->|[->|[->|[->|[->|[->|[->|[->|[->|[->|[->| ->]]]]]]]]]]];
    cbv [andb Z.eqb Z.ltb Z.compare Pos.eqb Pos.compare Pos.compare_cont nth Z.to_nat
         Pos.to_nat Pos.iter_op Nat.add DAYS_IN_MONTH DAYS_BEFORE_MONTH];
    lia.
Qed.

Lemma toordinal_bounds t :
  valid_datetimeb t = true -> 1 <= toordinal t <= MAXORDINAL.
Proof.
  intros [Hy Hm Hd _ _ _ _]%valid_datetimeb_ok.
  pose proof (days_before_month_day _ _ _ Hm Hd) as Hmd.
  unfold toordinal, ymd2ord, MAXORDINAL, days_before_year.
  set (md := days_before_month (year t) (month t) + day t) in *.
  replace (_ + days_before_month _ _ + day t)
    with ((year t - 1) * 365 + (year t - 1) / 4 - (year t - 1) / 100
          + (year t - 1) / 400 + md) by (subst md; lia).
  clearbody md. destruct (Z.eq_dec (year t) 9999) as [E|E].
  - rewrite E in *. change (is_leap 9999) with false in Hmd.
    Z.div_mod_to_equations. lia.
  - assert (md <= 366) by (destruct (is_leap _); lia).
    Z.div_mod_to_equations. lia.
Qed.

Lemma seconds_of_day_bounds t :
  valid_datetimeb t = true -> 0 <= seconds_of_day t < 86400.
Proof.
  intros [_ _ _ Hh Hm Hs _]%valid_datetimeb_ok. unfold seconds_of_day. lia.
Qed.

(** The difference of two datetimes never overflows: the elapsed time in
    normal form. *)
Lemma datetime_sub_spec a b :
  valid_datetimeb a = true -> valid_datetimeb b = true ->
  exists td, datetime_sub a b = Ok td
    /\ normal_td td /\ td_micros td = instant a - instant b.
Proof.
  intros Ha Hb.
  pose proof (toordinal_bounds a Ha). pose proof (toordinal_bounds b Hb).
  pose proof (seconds_of_day_bounds a Ha). pose proof (seconds_of_day_bounds b Hb).
  pose proof Ha as [_ _ _ _ _ _ Hua]%valid_datetimeb_ok.
  pose proof Hb as [_ _ _ _ _ _ Hub]%valid_datetimeb_ok.
  unfold MAXORDINAL in *.
  destruct (timedelta_new_spec (toordinal a - toordinal b)
              (seconds_of_day a - seconds_of_day b)
              (microsecond a - microsecond b)) as (td & Htd & Hn & Hm & _).
  - Z.div_mod_to_equations. lia.
  - exists td. split; [exact Htd|]. split; [done|]. rewrite Hm. unfold instant. lia.
Qed.

(** * The claims *)

Lemma textb_Forall s : textb s = true -> Forall code_point s.
Proof.
  unfold textb. rewrite forallb_forall, Forall_forall.
  intros H c Hc%list_elem_of_In. specialize (H c Hc).
  unfold code_pointb in H. apply andb_true_iff in H as [?%Z.leb_le ?%Z.leb_le].
  by split.
Qed.

Lemma writableb_writable e : writableb e = true -> writable e.
Proof.
  unfold writableb, writable. rewrite !andb_true_iff.
  intros [[[[[Hv Hu%Z.eqb_eq] Hd%Z.eqb_eq] Hlo%Z.leb_le] Hhi%Z.ltb_lt] Ht%textb_Forall].
  repeat split; auto.
Qed.

Lemma whole_second_id t : microsecond t = 0 -> whole_second t = t.
Proof. destruct t. cbn. by intros ->. Qed.

Lemma clock_part_truncate td : days td = 0 -> clock_part td = truncate_td td.
Proof. unfold clock_part, truncate_td. by intros ->. Qed.

Lemma truncate_td_id td : microseconds td = 0 -> truncate_td td = td.
Proof. destruct td. cbn. by intros ->. Qed.

(** ** The record codec *)

(** C1, as amended: for every log entry with a time stamp of second
    precision, a non-negative duration of whole seconds below 24 hours and
    any description (tabs, quotes, line ends, the empty text), decoding
    the encoded line yields the entry:
    [parse_entry(dump_entry(entry)) == entry]. *)
Theorem parse_dump_roundtrip {R : Runtime} (start : datetime) (delta : timedelta)
    (desc : str) :
  valid_datetimeb start = true -> microsecond start = 0 ->
  days delta = 0 -> 0 <= seconds delta < 86400 -> microseconds delta = 0 ->
  textb desc = true ->
  parse_entry (dump_entry (start, delta, VStr desc)) = Ok (start, delta, VStr desc).
Proof.
  intros Hv Hus Hd Hs Hud Hdesc%textb_Forall.
  destruct (parse_dump_entry start delta desc Hv Hs Hdesc) as [-> _].
  by rewrite whole_second_id, clock_part_truncate, truncate_td_id.
Qed.

Lemma parse_dump_roundtrip_witness :
  parse_entry (R := latin1) (dump_entry (R := latin1) (day1_9am, five_seconds, VStr awkward_text))
  = Ok (day1_9am, five_seconds, VStr awkward_text).
Proof.
  apply (parse_dump_roundtrip (R := latin1) day1_9am five_seconds awkward_text);
    solve [reflexivity | simpl; lia].
Defined.

(** C1 as stated fails: a duration of five and a half seconds is
    non-negative, and comes back as five seconds. *)
Lemma parse_dump_subsecond_counterexample :
  valid_datetimeb day1_9am = true /\ microsecond day1_9am = 0
  /\ 0 <= td_micros five_and_a_half_seconds
  /\ parse_entry (R := latin1) (dump_entry (R := latin1) (day1_9am, five_and_a_half_seconds, VStr awkward_text))
     <> Ok (day1_9am, five_and_a_half_seconds, VStr awkward_text).
Proof.
  split; [reflexivity|]. split; [reflexivity|]. split; [by vm_compute|].
  destruct (parse_dump_entry (R := latin1) day1_9am five_and_a_half_seconds awkward_text)
    as [-> _]; [reflexivity|simpl; lia|by apply textb_Forall|].
  discriminate.
Qed.

(** C2: the code drops the days of a duration. [timedelta(hours=25)] is
    one day and 3600 seconds; [dump_td] writes [td.seconds] only, so 25
    hours are encoded as 01:00:00 and not as 25:00:00. *)
Theorem dump_td_drops_days :
  timedelta_hms 25 0 0 = Ok twenty_five_hours
  /\ dump_td twenty_five_hours = u "01:00:00"
  /\ forall td, dump_td td = dump_td (clock_part td).
Proof. split; [reflexivity|]. split; [reflexivity|]. reflexivity. Qed.

(** ** The record store *)

Section StoreFacts.
Context {R : Runtime}.

Lemma start_result now fs :
  RecordStore.start now fs
  = match fs !! RecordStore.current_stamp with
    | Some _ => (false, fs)
    | None => (true, <[RecordStore.current_stamp := strftime now DATE_FORMAT]> fs)
    end.
Proof. reflexivity. Qed.

Lemma start_leaves_marker now fs :
  is_Some ((RecordStore.start now fs).2 !! RecordStore.current_stamp).
Proof.
  rewrite start_result.
  destruct (fs !! RecordStore.current_stamp) as [text|] eqn:Hm; cbn [snd].
  - by rewrite Hm.
  - by rewrite lookup_insert_eq.
Qed.

Lemma stop_marker fs : RecordStore.stop fs !! RecordStore.current_stamp = None.
Proof.
  unfold RecordStore.stop.
  destruct (fs !! RecordStore.current_stamp) eqn:Hm; [|done].
  apply lookup_delete_eq.
Qed.

Lemma current_idle now fs :
  fs !! RecordStore.current_stamp = None ->
  RecordStore.current now fs = Ok (None, timedelta_zero).
Proof. intros Hm. unfold RecordStore.current. by rewrite Hm. Qed.

End StoreFacts.

(** C3: when [start()] is called while a marker exists, it returns false
    and changes nothing: the store, with its marker, the time stamp in it
    and the log, is the one it was given.  So of two calls in a row the
    second returns false and leaves the store as the first call left it. *)
Theorem start_while_tracking (now1 now2 : datetime) (fs : gmap string str) :
  (is_Some (fs !! RecordStore.current_stamp) -> RecordStore.start now2 fs = (false, fs))
  /\ RecordStore.start now2 (RecordStore.start now1 fs).2
     = (false, (RecordStore.start now1 fs).2).
Proof.
  assert (Hgen : forall fs', is_Some (fs' !! RecordStore.current_stamp) ->
                 RecordStore.start now2 fs' = (false, fs')).
  { intros fs' [text Hm]. by rewrite start_result, Hm. }
  split; [apply Hgen|]. apply Hgen, start_leaves_marker.
Qed.

Lemma start_while_tracking_witness :
  RecordStore.start day2_9am
    (RecordStore.start day1_9am (RecordStore.init ∅)).2
  = (false, (RecordStore.start day1_9am (RecordStore.init ∅)).2).
Proof.
  apply (start_while_tracking day1_9am day2_9am
           (RecordStore.start day1_9am (RecordStore.init ∅)).2).
  vm_compute. eauto.
Defined.

(** C9: [stop()] never fails; it deletes the marker when there is one and
    does nothing when there is none, so a second call in a row changes
    nothing: after one call as after two, no marker is left (the store is
    idle) and the log is as it was. *)
Theorem stop_idempotent (fs : gmap string str) :
  RecordStore.stop (RecordStore.stop fs) = RecordStore.stop fs
  /\ RecordStore.stop fs !! RecordStore.current_stamp = None
  /\ RecordStore.stop fs !! RecordStore.log = fs !! RecordStore.log
  /\ RecordStore.stop fs = delete RecordStore.current_stamp fs.
Proof.
  assert (Hdel : RecordStore.stop fs = delete RecordStore.current_stamp fs).
  { unfold RecordStore.stop.
    destruct (fs !! RecordStore.current_stamp) eqn:Hm; [done|].
    by rewrite delete_id. }
  split; [|split; [|split]].
  - unfold RecordStore.stop at 1. by rewrite stop_marker.
  - apply stop_marker.
  - rewrite Hdel. by rewrite lookup_delete_ne.
  - exact Hdel.
Qed.

Lemma current_tracking {R : Runtime} now fs text start :
  valid_datetimeb now = true ->
  fs !! RecordStore.current_stamp = Some text ->
  strptime (translate_newlines text) DATE_FORMAT = Ok start ->
  exists delta,
    RecordStore.current now fs = Ok (Some start, delta)
    /\ datetime_sub now start = Ok delta
    /\ normal_td delta
    /\ td_micros delta = instant now - instant start.
Proof.
  intros Hnow Hm Hparse.
  destruct (datetime_sub_spec now start Hnow (strptime_valid _ _ _ Hparse))
    as (delta & Hsub & Hn & Hmicros).
  exists delta. split; [|by split; [|split]].
  unfold RecordStore.current. rewrite Hm, Hparse. cbn [bind]. by rewrite Hsub.
Qed.

(** C5: [current()] returns (absent, zero duration) exactly when there is
    no marker; with a marker that holds a time stamp it returns that time
    stamp and now minus it.  After a [start()] that returned true it
    returns the time of that call, to the second; after [stop()] it
    returns absent. *)
Theorem current_spec {R : Runtime} (now : datetime) (fs : gmap string str) :
  valid_datetimeb now = true ->
  (fs !! RecordStore.current_stamp = None ->
     RecordStore.current now fs = Ok (None, timedelta_zero))
  /\ (forall delta, RecordStore.current now fs = Ok (None, delta) ->
        fs !! RecordStore.current_stamp = None)
  /\ (forall text start,
        fs !! RecordStore.current_stamp = Some text ->
        strptime (translate_newlines text) DATE_FORMAT = Ok start ->
        exists delta,
          RecordStore.current now fs = Ok (Some start, delta)
          /\ datetime_sub now start = Ok delta
          /\ normal_td delta
          /\ td_micros delta = instant now - instant start)
  /\ (forall t0 fs1,
        valid_datetimeb t0 = true ->
        RecordStore.start t0 fs = (true, fs1) ->
        exists delta,
          RecordStore.current now fs1 = Ok (Some (whole_second t0), delta)
          /\ normal_td delta
          /\ td_micros delta = instant now - instant (whole_second t0))
  /\ RecordStore.current now (RecordStore.stop fs) = Ok (None, timedelta_zero).
Proof.
  intros Hnow. split; [apply current_idle|]. split; [|split; [|split]].
  - intros delta. unfold RecordStore.current.
    destruct (fs !! RecordStore.current_stamp) as [text|]; [|done].
    destruct (strptime _ _) as [start|]; [|discriminate]. cbn [bind].
    destruct (datetime_sub now start); discriminate.
  - intros text start. by apply current_tracking.
  - intros t0 fs1 Ht0. rewrite start_result.
    destruct (fs !! RecordStore.current_stamp) as [text|]; [discriminate|].
    intros [= <-].
    destruct (current_tracking now
                (<[RecordStore.current_stamp := strftime t0 DATE_FORMAT]> fs)
                (strftime t0 DATE_FORMAT) (whole_second t0) Hnow)
      as (delta & Hcur & _ & Hn & Hmicros).
    + apply lookup_insert_eq.
    + rewrite translate_newlines_id by (apply visible_no; [done|apply strftime_visible]).
      by apply strptime_strftime.
    + by exists delta.
  - apply current_idle, stop_marker.
Qed.

Lemma current_spec_witness :
  exists delta,
    RecordStore.current (R := latin1) day1_9am_5s
      (RecordStore.start day1_9am (RecordStore.init ∅)).2
    = Ok (Some day1_9am, delta)
    /\ td_micros delta = 5250000.
Proof.
  destruct (current_spec (R := latin1) day1_9am_5s (RecordStore.init ∅) eq_refl)
    as (_ & _ & _ & Hstart & _).
  destruct (Hstart day1_9am (RecordStore.start day1_9am (RecordStore.init ∅)).2)
    as (delta & Hcur & _ & Hmicros); [reflexivity|vm_compute; reflexivity|].
  exists delta. split; [exact Hcur|exact Hmicros].
Defined.

Section LogFacts.
Context {R : Runtime}.

Lemma dump_entry_no_line_end start delta desc :
  0 <= seconds delta < 86400 ->
  Forall (fun c => c <> LF /\ c <> CR) (dump_entry (start, delta, VStr desc)).
Proof.
  intros Hs. unfold dump_entry. cbn [repr].
  assert (Hvis : forall s, Forall visible s -> Forall (fun c => c <> LF /\ c <> CR) s).
  { intros s Hs'. eapply Forall_impl; [exact Hs'|].
    intros c [Hc _]. unfold LF, CR. lia. }
  cbn [app].
  apply Forall_app; split; [apply Hvis, strftime_visible|].
  apply Forall_cons; split; [done|].
  apply Forall_app; split; [by apply Hvis, dump_td_visible|].
  apply Forall_cons; split; [done|].
  apply Hvis, repr_str_visible.
Qed.

(** The log after a sequence of writes: the old text, then one line per
    write, in the order of the calls. *)
Lemma write_all_log es fs text :
  fs !! RecordStore.log = Some text ->
  write_all es fs !! RecordStore.log
  = Some (text ++ concat (map (fun e => dump_entry (e.1.1, e.1.2, VStr e.2) ++ [LF]) es)).
Proof.
  revert fs text. induction es as [|e es IH]; intros fs text Hlog; cbn [map concat].
  - by rewrite app_nil_r.
  - change (write_all (e :: es) fs)
      with (write_all es (RecordStore.write e.1.1 e.1.2 (VStr e.2) fs)).
    erewrite (IH (RecordStore.write e.1.1 e.1.2 (VStr e.2) fs)).
    + by rewrite <- app_assoc.
    + unfold RecordStore.write. by rewrite lookup_insert_eq, Hlog.
Qed.

Lemma load_text fs text :
  fs !! RecordStore.log = Some text ->
  RecordStore.load fs = map_res parse_entry (readlines text).
Proof. intros Hlog. unfold RecordStore.load. by rewrite Hlog. Qed.

Lemma load_write_all es fs :
  fs !! RecordStore.log = Some [] ->
  Forall (fun e => valid_datetimeb e.1.1 = true /\ 0 <= seconds e.1.2 < 86400
                   /\ Forall code_point e.2) es ->
  RecordStore.load (write_all es fs)
  = Ok (map (fun e => (whole_second e.1.1, clock_part e.1.2, VStr e.2)) es).
Proof.
  intros Hlog Hes.
  rewrite (load_text _ _ (write_all_log es fs [] Hlog)). cbn [app].
  rewrite <- (map_map (fun e => dump_entry (e.1.1, e.1.2, VStr e.2)) (fun l => l ++ [LF])).
  rewrite readlines_concat.
  - rewrite map_map. apply map_res_map.
    eapply Forall_impl; [exact Hes|]. intros [[start delta] desc] (Hv & Hs & Hd).
    by apply parse_dump_entry.
  - apply Forall_map. eapply Forall_impl; [exact Hes|].
    intros [[start delta] desc] (Hv & Hs & Hd). by apply dump_entry_no_line_end.
Qed.

End LogFacts.

(** C4, as amended: on a store whose log is empty, after N calls of
    [write(start, duration, description)] with time stamps of second
    precision and durations below 24 hours, [load()] returns exactly N
    entries, in the order of the calls, each equal to the triple written
    with its duration truncated to whole seconds; each write appends one
    line to the log and leaves the text before it as it was. *)
Theorem load_after_writes {R : Runtime} (es : list (datetime * timedelta * str))
    (fs : gmap string str) :
  fs !! RecordStore.log = Some [] ->
  forallb writableb es = true ->
  RecordStore.load (write_all es fs) = Ok (map stored es)
  /\ (forall start delta desc fs',
        RecordStore.write start delta desc fs' !! RecordStore.log
        = Some (default [] (fs' !! RecordStore.log)
                ++ dump_entry (start, delta, desc) ++ [LF]))
  /\ Forall (fun e => Forall (fun c => c <> LF /\ c <> CR)
                        (dump_entry (e.1.1, e.1.2, VStr e.2))) es.
Proof.
  intros Hlog Hes. rewrite forallb_forall in Hes. split; [|split].
  - rewrite load_write_all; [f_equal|done|].
    + apply map_ext_in. intros [[start delta] desc] Hin.
      destruct (writableb_writable _ (Hes _ Hin)) as (_ & Hus & Hd & _). cbn in *.
      unfold stored. cbn. by rewrite whole_second_id, clock_part_truncate.
    + apply Forall_forall. intros e Hin%list_elem_of_In.
      by destruct (writableb_writable _ (Hes _ Hin)) as (? & _ & _ & ? & ?).
  - intros start delta desc fs'. unfold RecordStore.write. apply lookup_insert_eq.
  - apply Forall_forall. intros [[start delta] desc] Hin%list_elem_of_In.
    destruct (writableb_writable _ (Hes _ Hin)) as (_ & _ & _ & Hs & _).
    by apply dump_entry_no_line_end.
Qed.

Lemma load_after_writes_witness :
  RecordStore.load (R := latin1)
    (write_all (R := latin1)
       [(day1_9am, five_and_a_half_seconds, awkward_text);
        (day2_9am, five_seconds, [])]
       (RecordStore.init ∅))
  = Ok [(day1_9am, five_seconds, VStr awkward_text); (day2_9am, five_seconds, VStr [])].
Proof.
  apply (load_after_writes (R := latin1)
           [(day1_9am, five_and_a_half_seconds, awkward_text);
            (day2_9am, five_seconds, [])]
           (RecordStore.init ∅)); reflexivity.
Defined.

(** C4 as stated fails: the entry loaded is not the triple written when
    the duration has a fraction of a second, as the durations have that
    [end] and [switch] take from the clock. *)
Lemma load_after_write_counterexample :
  RecordStore.load (R := latin1)
    (RecordStore.write (R := latin1) day1_9am five_and_a_half_seconds
       (VStr awkward_text) (RecordStore.init ∅))
  <> Ok [(day1_9am, five_and_a_half_seconds, VStr awkward_text)].
Proof.
  change (RecordStore.write (R := latin1) day1_9am five_and_a_half_seconds
            (VStr awkward_text) (RecordStore.init ∅))
    with (write_all (R := latin1) [(day1_9am, five_and_a_half_seconds, awkward_text)]
            (RecordStore.init ∅)).
  rewrite load_write_all; [discriminate|reflexivity|].
  apply Forall_cons. split; [|constructor].
  split; [reflexivity|]. split; [cbn; lia|]. by apply textb_Forall.
Qed.

(** ** The commands *)

(** C7: [show(date)] selects exactly the entries of [load()] whose start
    falls on the given calendar date (today when no date is given), in
    the order of the log: an entry is shown if and only if its date is
    that date. *)
Theorem show_selects {R : Runtime} (now : datetime) (date : option str)
    (fs : gmap string str) (entries : list entry) (date_time : datetime) :
  RecordStore.load fs = Ok entries ->
  match date with
  | None => Ok now
  | Some d => strptime d (u "%Y-%m-%d")
  end = Ok date_time ->
  exists records,
    show now date fs = Ok records
    /\ records `sublist_of` entries
    /\ forall e, e ∈ records <-> e ∈ entries /\ date_of e.1.1 = date_of date_time.
Proof.
  intros Hload Hdate. unfold show. rewrite Hdate, Hload. cbn [bind].
  eexists. split; [reflexivity|]. split; [apply sublist_filter|].
  intros e. rewrite list_elem_of_filter, bool_decide_spec. tauto.
Qed.

Lemma show_selects_witness :
  exists records,
    show (R := latin1) day2_9am (Some (u "2024-01-01"))
      (write_all (R := latin1)
         [(day1_9am, five_seconds, awkward_text); (day2_9am, five_seconds, [])]
         (RecordStore.init ∅))
    = Ok records
    /\ records `sublist_of`
         [(day1_9am, five_seconds, VStr awkward_text); (day2_9am, five_seconds, VStr [])]
    /\ forall e, e ∈ records <->
         e ∈ [(day1_9am, five_seconds, VStr awkward_text);
              (day2_9am, five_seconds, VStr [])]
         /\ date_of e.1.1 = (2024, 1, 1).
Proof.
  apply (show_selects (R := latin1) day2_9am (Some (u "2024-01-01"))
           (write_all (R := latin1)
              [(day1_9am, five_seconds, awkward_text); (day2_9am, five_seconds, [])]
              (RecordStore.init ∅))
           [(day1_9am, five_seconds, VStr awkward_text); (day2_9am, five_seconds, VStr [])]
           {| year := 2024; month := 1; day := 1;
              hour := 0; minute := 0; second := 0; microsecond := 0 |});
    vm_compute; reflexivity.
Defined.

Section ListingFacts.
Context {R : Runtime}.

Lemma reverse_log_grouped es :
  reverse_log_from None es = map render (grouped None es)
  /\ forall p, reverse_log_from (Some (date_of p.1.1)) es
               = map render (grouped (Some p) es).
Proof.
  assert (Hsome : forall es p, reverse_log_from (Some (date_of p.1.1)) es
                               = map render (grouped (Some p) es)).
  { clear es. induction es as [|e es IH]; intros p; cbn [reverse_log_from grouped]; [done|].
    destruct (bool_decide (date_of p.1.1 = date_of e.1.1)) eqn:Hd; cbn [app map render].
    - apply bool_decide_eq_true in Hd. rewrite Hd. by rewrite IH.
    - by rewrite IH. }
  split; [|apply Hsome].
  destruct es as [|e es]; cbn [reverse_log_from grouped]; [done|].
  rewrite bool_decide_eq_true_2 by done. cbn [app map render]. by rewrite Hsome.
Qed.

Lemma lines_of_grouped prev es : lines_of (grouped prev es) = es.
Proof.
  revert prev. induction es as [|e es IH]; intros prev; cbn [grouped]; [done|].
  destruct prev as [p|]; [destruct (bool_decide _)|]; cbn [app lines_of]; by rewrite IH.
Qed.

Lemma grouped_app prev es1 a es2 :
  grouped prev (es1 ++ a :: es2)
  = grouped prev (es1 ++ [a]) ++ grouped (Some a) es2.
Proof.
  revert prev. induction es1 as [|e es1 IH]; intros prev; cbn [app grouped].
  - by rewrite <- app_assoc.
  - rewrite IH, <- !app_assoc. reflexivity.
Qed.

End ListingFacts.

(** C8: the listing of [log] holds the entries in reverse file order, and
    between two neighbours of that order exactly one blank separator line
    when their calendar dates differ and none when they are the same. *)
Theorem log_listing {R : Runtime} (fs : gmap string str) (entries : list entry) :
  RecordStore.load fs = Ok entries ->
  log fs = Ok (map render (grouped None (rev entries)))
  /\ lines_of (grouped None (rev entries)) = rev entries
  /\ forall es1 a b es2, rev entries = es1 ++ a :: b :: es2 ->
       grouped None (rev entries)
       = grouped None (es1 ++ [a])
         ++ (if bool_decide (date_of a.1.1 = date_of b.1.1) then [] else [Separator])
         ++ Line b :: grouped (Some b) es2.
Proof.
  intros Hload. split; [|split].
  - unfold log, reverse_log. rewrite Hload. cbn [bind].
    by destruct (reverse_log_grouped (rev entries)) as [-> _].
  - apply lines_of_grouped.
  - intros es1 a b es2 ->. by rewrite grouped_app.
Qed.

Lemma log_listing_witness :
  log (R := latin1) three_entries
  = Ok (map (render (R := latin1))
          [Line (day2_9am, five_seconds, VStr []);
           Separator;
           Line (day1_10am, five_seconds, VStr (u "second"));
           Line (day1_9am, five_seconds, VStr awkward_text)]).
Proof.
  destruct (log_listing (R := latin1) three_entries
              [(day1_9am, five_seconds, VStr awkward_text);
               (day1_10am, five_seconds, VStr (u "second"));
               (day2_9am, five_seconds, VStr [])]) as [Hlog _].
  - vm_compute. reflexivity.
  - exact Hlog.
Defined.

Section StatusFacts.
Context {R : Runtime}.

Lemma strftime_HMS t :
  strftime t (u "%H:%M:%S")
  = dec_fixed 2 (hour t) ++ 58 :: dec_fixed 2 (minute t) ++ 58 :: dec_fixed 2 (second t).
Proof.
  cbv -[dec_fixed app Z.add Z.div Z.modulo year month day hour minute second].
  by rewrite app_nil_r.
Qed.

Lemma current_inv now fs start delta :
  RecordStore.current now fs = Ok (Some start, delta) ->
  exists text,
    fs !! RecordStore.current_stamp = Some text
    /\ strptime (translate_newlines text) DATE_FORMAT = Ok start
    /\ datetime_sub now start = Ok delta.
Proof.
  unfold RecordStore.current.
  destruct (fs !! RecordStore.current_stamp) as [text|]; [|discriminate].
  destruct (strptime _ _) as [start'|] eqn:Hparse; [|discriminate]. cbn [bind].
  destruct (datetime_sub now start') as [delta'|] eqn:Hsub; [|discriminate].
  intros [= <- <-]. by exists text.
Qed.

(** The elapsed time between two datetimes is less than [MAXORDINAL] days. *)
Lemma datetime_sub_days a b td :
  valid_datetimeb a = true -> valid_datetimeb b = true ->
  datetime_sub a b = Ok td ->
  normal_td td /\ days td < MAXORDINAL.
Proof.
  intros Ha Hb Hsub.
  pose proof (toordinal_bounds a Ha). pose proof (toordinal_bounds b Hb).
  pose proof (seconds_of_day_bounds a Ha). pose proof (seconds_of_day_bounds b Hb).
  pose proof Ha as [_ _ _ _ _ _ Hua]%valid_datetimeb_ok.
  pose proof Hb as [_ _ _ _ _ _ Hub]%valid_datetimeb_ok.
  unfold MAXORDINAL in *.
  destruct (timedelta_new_spec (toordinal a - toordinal b)
              (seconds_of_day a - seconds_of_day b)
              (microsecond a - microsecond b)) as (td' & Htd & Hn & _ & Hdays).
  - Z.div_mod_to_equations. lia.
  - unfold datetime_sub in Hsub. rewrite Htd in Hsub. injection Hsub as <-.
    split; [done|]. rewrite Hdays. Z.div_mod_to_equations. lia.
Qed.

Lemma timedelta_new_ok d s us :
  Z.abs (d + (s + us / 1000000) / 86400) <= 999999999 ->
  timedelta_new d s us
  = Ok {| days := d + (s + us / 1000000) / 86400;
          seconds := (s + us / 1000000) mod 86400;
          microseconds := us mod 1000000 |}.
Proof.
  intros Hd. unfold timedelta_new.
  by destruct (Z.ltb_spec 999999999 (Z.abs (d + (s + us / 1000000) / 86400))); [lia|].
Qed.

(** Adding a non-negative duration to 0001-01-01 00:00:00: the time of
    day of the sum is the duration's seconds within the day. *)
Lemma origin_add delta :
  normal_td delta -> 0 <= days delta < MAXORDINAL ->
  exists time,
    datetime_add {| year := 1; month := 1; day := 1;
                    hour := 0; minute := 0; second := 0; microsecond := 0 |} delta
    = Ok time
    /\ hour time = seconds delta / 3600
    /\ minute time = seconds delta mod 3600 / 60
    /\ second time = seconds delta mod 3600 mod 60.
Proof.
  intros [Hs Hu] Hd. unfold MAXORDINAL in Hd. unfold datetime_add.
  change (timedelta_new _ _ _) with (Ok {| days := 1; seconds := 0; microseconds := 0 |}).
  cbn [bind]. unfold timedelta_add. cbn [days seconds microseconds].
  rewrite timedelta_new_ok by (Z.div_mod_to_equations; lia).
  cbn [bind days seconds microseconds].
  replace (1 + days delta + (0 + seconds delta + (0 + microseconds delta) / 1000000) / 86400)
    with (1 + days delta) by (Z.div_mod_to_equations; lia).
  replace ((0 + seconds delta + (0 + microseconds delta) / 1000000) mod 86400)
    with (seconds delta) by (Z.div_mod_to_equations; lia).
  unfold MAXORDINAL.
  destruct (Z.ltb_spec 0 (1 + days delta)); [|lia].
  destruct (Z.leb_spec (1 + days delta) 3652059); [|lia].
  cbn [andb]. destruct (ord2ymd (1 + days delta)) as [[y m] dd].
  eexists. split; [reflexivity|]. cbn. done.
Qed.

End StatusFacts.

(** C10: for an open session whose elapsed time is not negative, [status]
    shows hours, minutes and seconds of the elapsed time with the whole
    days dropped: the hours are those of the elapsed time modulo 24 (25
    hours are shown as 01:00:00). *)
Theorem status_drops_days {R : Runtime} (now : datetime) (fs : gmap string str)
    (start : datetime) (delta : timedelta) :
  valid_datetimeb now = true ->
  RecordStore.current now fs = Ok (Some start, delta) ->
  0 <= days delta ->
  let total := days delta * 86400 + seconds delta in
  status now fs
  = Ok (BLUE ++ u "Time elapsed: "
        ++ dec_fixed 2 (total / 3600 mod 24) ++ [COLON]
        ++ dec_fixed 2 (total / 60 mod 60) ++ [COLON]
        ++ dec_fixed 2 (total mod 60) ++ END).
Proof.
  intros Hnow Hcur Hdays total.
  destruct (current_inv _ _ _ _ Hcur) as (text & _ & Hparse & Hsub).
  destruct (datetime_sub_days now start delta Hnow (strptime_valid _ _ _ Hparse) Hsub)
    as [Hn Hmax].
  destruct (origin_add delta Hn (conj Hdays Hmax)) as (time & Hadd & Hh & Hm & Hs).
  unfold status. rewrite Hcur. cbn [bind].
  change (datetime_new 1 1 1 0 0 0)
    with (Ok {| year := 1; month := 1; day := 1;
                hour := 0; minute := 0; second := 0; microsecond := 0 |}).
  cbn [bind]. rewrite Hadd. cbn [bind]. rewrite strftime_HMS, Hh, Hm, Hs.
  destruct Hn as [Hsec _]. subst total.
  replace ((days delta * 86400 + seconds delta) / 3600 mod 24)
    with (seconds delta / 3600) by (Z.div_mod_to_equations; lia).
  replace ((days delta * 86400 + seconds delta) / 60 mod 60)
    with (seconds delta mod 3600 / 60) by (Z.div_mod_to_equations; lia).
  replace ((days delta * 86400 + seconds delta) mod 60)
    with (seconds delta mod 3600 mod 60) by (Z.div_mod_to_equations; lia).
  reflexivity.
Qed.

Lemma status_drops_days_witness :
  status (R := latin1) day2_10am (RecordStore.start day1_9am (RecordStore.init ∅)).2
  = Ok (BLUE ++ u "Time elapsed: 01:00:00" ++ END).
Proof.
  apply (status_drops_days (R := latin1) day2_10am
           (RecordStore.start day1_9am (RecordStore.init ∅)).2
           day1_9am twenty_five_hours);
    [reflexivity|vm_compute; reflexivity|vm_compute; discriminate].
Defined.

(** ** Decoding errors *)

Lemma map_res_ok {A B} (f : A -> res B) xs :
  is_ok (map_res f xs) = true <-> Forall (fun x => is_ok (f x) = true) xs.
Proof.
  induction xs as [|x xs IH]; cbn [map_res].
  - split; [constructor|done].
  - rewrite Forall_cons. destruct (f x) as [y|e]; cbn [bind is_ok].
    + destruct (map_res f xs); cbn [bind is_ok] in *; [|]; intuition discriminate.
    + intuition discriminate.
Qed.

Lemma map_res_Forall2 {A B} (f : A -> res B) xs ys :
  map_res f xs = Ok ys -> Forall2 (fun x y => f x = Ok y) xs ys.
Proof.
  revert ys. induction xs as [|x xs IH]; intros ys; cbn [map_res].
  - intros [= <-]. constructor.
  - destruct (f x) as [y|e] eqn:Hx; [|discriminate]. cbn [bind].
    destruct (map_res f xs) as [ys'|e]; [|discriminate]. cbn [bind].
    intros [= <-]. constructor; auto.
Qed.

(** C6, as amended: decoding a line fails when the text between its line
    ends, split at the first two tabs, has fewer than three fields, and
    otherwise exactly when [strptime], [parse_td] or [literal_eval]
    rejects its field; [parse_td] accepts only a field of three parts
    between colons.  [load()] fails exactly when some line of the log
    fails to decode, and otherwise returns one entry for each line, none
    skipped. *)
Theorem decode_errors {R : Runtime} :
  (forall line, length (split_max TAB 2 (strip line)) <> 3%nat ->
     parse_entry line = Raise ValueError)
  /\ (forall line a b c, split_max TAB 2 (strip line) = [a; b; c] ->
        is_ok (parse_entry line)
        = is_ok (strptime a DATE_FORMAT) && is_ok (parse_td b) && is_ok (literal_eval c))
  /\ (forall b, is_ok (parse_td b) = true ->
        exists h m s, split COLON b = [h; m; s]
          /\ is_ok (py_int h) = true /\ is_ok (py_int m) = true
          /\ is_ok (py_int s) = true)
  /\ (forall fs text, fs !! RecordStore.log = Some text ->
        (is_ok (RecordStore.load fs) = true
         <-> Forall (fun line => is_ok (parse_entry line) = true) (readlines text)))
  /\ (forall fs text entries, fs !! RecordStore.log = Some text ->
        RecordStore.load fs = Ok entries ->
        Forall2 (fun line e => parse_entry line = Ok e) (readlines text) entries).
Proof.
  split; [|split; [|split; [|split]]].
  - intros line Hlen. unfold parse_entry.
    destruct (split_max TAB 2 (strip line)) as [|a [|b [|c [|d l]]]]; try done.
  - intros line a b c Hsplit. unfold parse_entry. rewrite Hsplit.
    destruct (strptime a DATE_FORMAT); [|done].
    destruct (parse_td b); [|done].
    by destruct (literal_eval c).
  - intros b. unfold parse_td.
    destruct (map_res py_int (split COLON b)) as [fields|e] eqn:Hmap; [|discriminate].
    apply map_res_Forall2 in Hmap. cbn [bind].
    destruct Hmap as [|h vh ? ? Hh Hmap]; [discriminate|].
    destruct Hmap as [|m vm ? ? Hm Hmap]; [discriminate|].
    destruct Hmap as [|s vs ? ? Hs Hmap]; [discriminate|].
    destruct Hmap; [|discriminate].
    intros _. exists h, m, s. by rewrite Hh, Hm, Hs.
  - intros fs text Hlog. rewrite (load_text _ _ Hlog). apply map_res_ok.
  - intros fs text entries Hlog. rewrite (load_text _ _ Hlog). apply map_res_Forall2.
Qed.

Lemma decode_errors_witness :
  parse_entry (R := latin1) (u "2024-01-01 09:00:00 00:00:05 'no tabs'" ++ [LF])
  = Raise ValueError.
Proof.
  apply (decode_errors (R := latin1)). vm_compute. discriminate.
Defined.

(** C6 as stated fails: a line whose duration field is not of the fixed
    format [HH:MM:SS] is decoded without an error. *)
Lemma lenient_line_counterexample :
  fixed_duration (u "1:2:3") = false
  /\ parse_entry (R := latin1) lenient_line
     = Ok (day1_9am, {| days := 0; seconds := 3723; microseconds := 0 |}, VStr (u "x")).
Proof. split; vm_compute; reflexivity. Qed.

(** * More of the code *)

(** ** The store: [__init__], [start], [stop], [write] *)

(** X1: creating the store twice is creating it once; it keeps a log
    that is there, with every other file, and after it the log file
    exists: that of a new directory is empty and loads as no entry. *)
Theorem init_idempotent {R : Runtime} (fs : gmap string str) :
  RecordStore.init (RecordStore.init fs) = RecordStore.init fs
  /\ (forall name text, fs !! name = Some text -> RecordStore.init fs !! name = Some text)
  /\ is_Some (RecordStore.init fs !! RecordStore.log)
  /\ RecordStore.load (RecordStore.init ∅) = Ok [].
Proof.
  unfold RecordStore.init. split; [|split; [|split]].
  - destruct (fs !! RecordStore.log) eqn:Hlog; [by rewrite Hlog|].
    by rewrite lookup_insert_eq.
  - intros name text Hname. destruct (fs !! RecordStore.log) eqn:Hlog; [done|].
    rewrite lookup_insert_ne; [done|]. by intros <-; rewrite Hlog in Hname.
  - destruct (fs !! RecordStore.log) as [text|] eqn:Hlog.
    + by rewrite Hlog.
    + by rewrite lookup_insert_eq.
  - reflexivity.
Qed.

Lemma init_idempotent_witness :
  RecordStore.init (<[RecordStore.log := u "kept"]> ∅) !! RecordStore.log
  = Some (u "kept").
Proof.
  apply (init_idempotent (R := latin1) (<[RecordStore.log := u "kept"]> ∅)).
  vm_compute. reflexivity.
Defined.

(** X2: [stop()] undoes a [start()] made on an idle store, and after
    [stop()] a [start()] always succeeds. *)
Theorem start_stop (now : datetime) (fs : gmap string str) :
  (fs !! RecordStore.current_stamp = None ->
     RecordStore.start now fs
     = (true, <[RecordStore.current_stamp := strftime now DATE_FORMAT]> fs)
     /\ RecordStore.stop (RecordStore.start now fs).2 = fs)
  /\ (RecordStore.start now (RecordStore.stop fs)).1 = true.
Proof.
  split.
  - intros Hidle. rewrite start_result, Hidle. split; [done|]. cbn [snd].
    unfold RecordStore.stop. rewrite lookup_insert_eq.
    by rewrite delete_insert_id.
  - by rewrite start_result, stop_marker.
Qed.

Lemma start_stop_witness :
  RecordStore.stop (RecordStore.start day1_9am (RecordStore.init ∅)).2
  = RecordStore.init ∅.
Proof.
  apply (start_stop day1_9am (RecordStore.init ∅)). vm_compute. reflexivity.
Defined.

(** X3: no operation of the store touches a file that is not its own:
    [start] and [stop] change the marker only, [write] and the creation
    of the store change the log only. *)
Theorem store_frame {R : Runtime} (fs : gmap string str) (name : string) :
  (name <> RecordStore.current_stamp ->
     forall now, (RecordStore.start now fs).2 !! name = fs !! name)
  /\ (name <> RecordStore.current_stamp -> RecordStore.stop fs !! name = fs !! name)
  /\ (name <> RecordStore.log ->
        forall start delta desc,
          RecordStore.write start delta desc fs !! name = fs !! name)
  /\ (name <> RecordStore.log -> RecordStore.init fs !! name = fs !! name).
Proof.
  split; [|split; [|split]].
  - intros Hne now. rewrite start_result.
    destruct (fs !! RecordStore.current_stamp); [done|]. cbn [snd].
    by rewrite lookup_insert_ne.
  - intros Hne. unfold RecordStore.stop.
    destruct (fs !! RecordStore.current_stamp); [|done].
    by rewrite lookup_delete_ne.
  - intros Hne start delta desc. unfold RecordStore.write.
    by rewrite lookup_insert_ne.
  - intros Hne. unfold RecordStore.init.
    destruct (fs !! RecordStore.log); [done|]. by rewrite lookup_insert_ne.
Qed.

Lemma store_frame_witness :
  RecordStore.write (R := latin1) day1_9am five_seconds (VStr awkward_text)
    (RecordStore.start day1_9am (RecordStore.init ∅)).2
  !! RecordStore.current_stamp
  = Some (u "2024-01-01 09:00:00").
Proof.
  destruct (store_frame (R := latin1)
              (RecordStore.start day1_9am (RecordStore.init ∅)).2
              RecordStore.current_stamp) as (_ & _ & Hwrite & _).
  rewrite Hwrite; [vm_compute; reflexivity|discriminate].
Defined.

(** ** The codec: [parse_td], [dump_td], [parse_entry] *)

Section CodecMore.
Context {R : Runtime}.

Lemma py_int_raises s e : py_int s = Raise e -> e = ValueError.
Proof.
  unfold py_int.
  destruct (match skip_int_space s with
            | [] => (false, skip_int_space s)
            | c :: t => _
            end) as [neg s2].
  destruct (int_body false 0 0 s2) as [[[v n] rest]|]; [|by intros [= <-]].
  destruct (skip_int_space rest); [|by intros [= <-]].
  destruct (int_max_str_digits <? n); [by intros [= <-]|discriminate].
Qed.

Lemma map_res_raises {A B} (f : A -> res B) xs e :
  map_res f xs = Raise e -> exists x, x ∈ xs /\ f x = Raise e.
Proof.
  induction xs as [|x xs IH]; cbn [map_res]; [discriminate|].
  destruct (f x) as [y|e'] eqn:Hx; cbn [bind].
  - destruct (map_res f xs) as [ys|e'']; cbn [bind]; [discriminate|].
    intros [= <-]. destruct IH as (x' & Hin & Hx'); [done|].
    exists x'. split; [by right|done].
  - intros [= <-]. exists x. split; [by left|done].
Qed.

Lemma map_res_length {A B} (f : A -> res B) xs ys :
  map_res f xs = Ok ys -> length ys = length xs.
Proof. intros H%map_res_Forall2. symmetry. by apply Forall2_length in H. Qed.

Lemma timedelta_hms_normal h m s td :
  timedelta_hms h m s = Ok td ->
  normal_td td /\ microseconds td = 0
  /\ days td * 86400 + seconds td = h * 3600 + m * 60 + s.
Proof.
  unfold timedelta_hms, timedelta_new.
  destruct (_ <? _); [discriminate|]. intros [= <-].
  unfold normal_td. cbn [days seconds microseconds].
  change (0 / 1000000) with 0. change (0 mod 1000000) with 0.
  rewrite Z.add_0_r. repeat split; try lia; Z.div_mod_to_equations; lia.
Qed.

Lemma parse_td_fields b fh fm fs h m s :
  split COLON b = [fh; fm; fs] ->
  py_int fh = Ok h -> py_int fm = Ok m -> py_int fs = Ok s ->
  parse_td b = timedelta_hms h m s.
Proof.
  intros Hsplit Hh Hm Hs. unfold parse_td. rewrite Hsplit. cbn [map_res].
  by rewrite Hh, Hm, Hs.
Qed.

End CodecMore.

(** X4: [parse_td] reads three integers between colons, not the fixed
    width only: signs and values of 60 or more are accepted and carried
    into the normal form, so the duration decoded is that of [h] hours,
    [m] minutes and [s] seconds, whole seconds; beyond 999999999 days it
    raises [OverflowError]. *)
Theorem parse_td_value {R : Runtime} (b fh fm fs : str) (h m s : Z) :
  split COLON b = [fh; fm; fs] ->
  py_int fh = Ok h -> py_int fm = Ok m -> py_int fs = Ok s ->
  let total := h * 3600 + m * 60 + s in
  (Z.abs (total / 86400) <= 999999999 ->
     exists td, parse_td b = Ok td
       /\ normal_td td /\ microseconds td = 0
       /\ days td * 86400 + seconds td = total)
  /\ (999999999 < Z.abs (total / 86400) -> parse_td b = Raise OverflowError).
Proof.
  intros Hsplit Hh Hm Hs total.
  rewrite (parse_td_fields _ _ _ _ _ _ _ Hsplit Hh Hm Hs).
  assert (Hnew : timedelta_hms h m s
                 = if 999999999 <? Z.abs (total / 86400) then Raise OverflowError
                   else Ok {| days := total / 86400; seconds := total mod 86400;
                              microseconds := 0 |}).
  { unfold timedelta_hms, timedelta_new. subst total.
    change (0 / 1000000) with 0. change (0 mod 1000000) with 0.
    by rewrite !Z.add_0_r, Z.add_0_l. }
  split; intros Hrange.
  - destruct (Z.ltb_spec 999999999 (Z.abs (total / 86400))); [lia|].
    eexists. split; [exact Hnew|]. by apply timedelta_hms_normal in Hnew.
  - rewrite Hnew. by destruct (Z.ltb_spec 999999999 (Z.abs (total / 86400))); [|lia].
Qed.

Lemma parse_td_value_witness :
  exists td, parse_td (R := latin1) (u "1:90:-30") = Ok td
    /\ normal_td td /\ microseconds td = 0
    /\ days td * 86400 + seconds td = 8970.
Proof.
  apply (parse_td_value (R := latin1) (u "1:90:-30") (u "1") (u "90") (u "-30") 1 90 (-30));
    vm_compute; solve [reflexivity | discriminate].
Defined.

(** X5: [parse_td] raises [ValueError] when its text does not split at
    colons into exactly three fields (the empty text is one field), and
    when one of the fields is not an integer. *)
Theorem parse_td_errors {R : Runtime} (b : str) :
  (length (split COLON b) <> 3%nat -> parse_td b = Raise ValueError)
  /\ (forall f, f ∈ split COLON b -> is_ok (py_int f) = false ->
        parse_td b = Raise ValueError).
Proof.
  unfold parse_td. split.
  - intros Hlen.
    destruct (map_res py_int (split COLON b)) as [fields|e] eqn:Hmap; cbn [bind].
    + apply map_res_length in Hmap. rewrite <- Hmap in Hlen.
      by destruct fields as [|x [|y [|z [|w l]]]].
    + apply map_res_raises in Hmap as (f & _ & Hf). by rewrite (py_int_raises _ _ Hf).
  - intros f Hin Hf.
    destruct (map_res py_int (split COLON b)) as [fields|e] eqn:Hmap; cbn [bind].
    + assert (Hok : is_ok (map_res py_int (split COLON b)) = true) by by rewrite Hmap.
      rewrite map_res_ok, Forall_forall in Hok. rewrite (Hok f Hin) in Hf. discriminate.
    + apply map_res_raises in Hmap as (f' & _ & Hf'). by rewrite (py_int_raises _ _ Hf').
Qed.

Lemma parse_td_errors_witness :
  parse_td (R := latin1) [] = Raise ValueError
  /\ parse_td (R := latin1) (u "01:00") = Raise ValueError.
Proof.
  split.
  - apply (parse_td_errors (R := latin1) []). vm_compute. discriminate.
  - apply (parse_td_errors (R := latin1) (u "01:00")). vm_compute. discriminate.
Defined.

Lemma forallb_ascii_digit w n : forallb ascii_digit (dec_fixed w n) = true.
Proof.
  apply forallb_forall. intros c Hc%list_elem_of_In.
  pose proof (dec_fixed_digits w n) as Hall. rewrite Forall_forall in Hall.
  specialize (Hall c Hc). unfold ascii_digit. cbn in Hall.
  apply andb_true_iff. split; apply Z.leb_le; lia.
Qed.

Lemma split_colon_fields a b c :
  split COLON (dec_fixed 2 a ++ [COLON] ++ dec_fixed 2 b ++ [COLON] ++ dec_fixed 2 c)
  = [dec_fixed 2 a; dec_fixed 2 b; dec_fixed 2 c].
Proof.
  unfold split. cbn [app].
  apply split_max_3; try (apply dec_fixed_not; unfold COLON; lia).
  repeat (rewrite length_app; cbn [length]). lia.
Qed.

(** X6: whatever its days, a duration in normal form is written by
    [dump_td] in the fixed format: eight characters, two digits each for
    hours below 24, minutes and seconds, with colons between. *)
Theorem dump_td_fixed_width (td : timedelta) :
  0 <= seconds td < 86400 ->
  fixed_duration (dump_td td) = true
  /\ length (dump_td td) = 8%nat
  /\ dump_td td
     = dec_fixed 2 (seconds td / 3600) ++ [COLON]
       ++ dec_fixed 2 (seconds td / 60 mod 60) ++ [COLON]
       ++ dec_fixed 2 (seconds td mod 60)
  /\ seconds td / 3600 < 24.
Proof.
  intros Hs. rewrite dump_td_digits by done.
  replace (seconds td mod 3600 / 60) with (seconds td / 60 mod 60)
    by (Z.div_mod_to_equations; lia).
  split; [|split; [|split]].
  - unfold fixed_duration. rewrite split_colon_fields, !forallb_ascii_digit.
    reflexivity.
  - reflexivity.
  - reflexivity.
  - Z.div_mod_to_equations. lia.
Qed.

Lemma dump_td_fixed_width_witness :
  dump_td twenty_five_hours = u "01:00:00".
Proof.
  destruct (dump_td_fixed_width twenty_five_hours) as (_ & _ & Htext & _).
  - simpl. lia.
  - exact Htext.
Defined.

(** X7: a duration text in the fixed format, with hours below 24 and
    minutes and seconds below 60, is decoded by [parse_td] and written
    back by [dump_td] as it was. *)
Theorem dump_parse_td {R : Runtime} (h m s : Z) :
  0 <= h < 24 -> 0 <= m < 60 -> 0 <= s < 60 ->
  let text := dec_fixed 2 h ++ [COLON] ++ dec_fixed 2 m ++ [COLON] ++ dec_fixed 2 s in
  exists td, parse_td text = Ok td
    /\ td = {| days := 0; seconds := h * 3600 + m * 60 + s; microseconds := 0 |}
    /\ dump_td td = text.
Proof.
  intros Hh Hm Hs text. subst text.
  rewrite (parse_td_fields _ _ _ _ h m s (split_colon_fields h m s))
    by (apply py_int_2; lia).
  unfold timedelta_hms, timedelta_new.
  change (0 / 1000000) with 0. change (0 mod 1000000) with 0.
  rewrite Z.add_0_r, Z.add_0_l, (Z.div_small (h * 3600 + m * 60 + s)),
    (Z.mod_small (h * 3600 + m * 60 + s)) by lia.
  eexists. split; [reflexivity|]. split; [reflexivity|].
  rewrite dump_td_digits by (cbn; lia). cbn [seconds].
  replace ((h * 3600 + m * 60 + s) / 3600) with h by (Z.div_mod_to_equations; lia).
  replace ((h * 3600 + m * 60 + s) mod 3600 / 60) with m by (Z.div_mod_to_equations; lia).
  replace ((h * 3600 + m * 60 + s) mod 60) with s by (Z.div_mod_to_equations; lia).
  reflexivity.
Qed.

Lemma dump_parse_td_witness :
  exists td, parse_td (R := latin1) (u "23:59:59") = Ok td
    /\ td = {| days := 0; seconds := 86399; microseconds := 0 |}
    /\ dump_td td = u "23:59:59".
Proof. apply (dump_parse_td (R := latin1) 23 59 59); lia. Defined.

Section EntryInvariant.
Context {R : Runtime}.

Lemma strptime_whole_second s fmt t : strptime s fmt = Ok t -> microsecond t = 0.
Proof.
  unfold strptime.
  destruct (compile_format false fmt) as [items|]; [|discriminate].
  destruct (re_match items s) as [[found [|? ?]]|]; try discriminate.
  destruct (group DY found 1900); [|discriminate].
  destruct (group Dm found 1); [|discriminate].
  destruct (group Dd found 1); [|discriminate].
  destruct (group DH found 0); [|discriminate].
  destruct (group DM found 0); [|discriminate].
  destruct (group DS found 0); [|discriminate].
  cbn [bind]. unfold datetime_new. destruct (valid_datetimeb _); [|discriminate].
  by intros [= <-].
Qed.

Lemma parse_td_normal b td :
  parse_td b = Ok td -> normal_td td /\ microseconds td = 0.
Proof.
  unfold parse_td.
  destruct (map_res py_int (split COLON b)) as [fields|]; [|discriminate]. cbn [bind].
  destruct fields as [|h [|m [|s [|x l]]]]; try discriminate.
  intros (? & ? & _)%timedelta_hms_normal. done.
Qed.

Lemma parse_entry_fields line start delta desc :
  parse_entry line = Ok (start, delta, desc) ->
  exists a b c, split_max TAB 2 (strip line) = [a; b; c]
    /\ strptime a DATE_FORMAT = Ok start /\ parse_td b = Ok delta
    /\ literal_eval c = Ok desc.
Proof.
  unfold parse_entry.
  destruct (split_max TAB 2 (strip line)) as [|a [|b [|c [|d l]]]]; try discriminate.
  destruct (strptime a DATE_FORMAT) as [start'|] eqn:Hs; [|discriminate]. cbn [bind].
  destruct (parse_td b) as [delta'|] eqn:Hd; [|discriminate]. cbn [bind].
  destruct (literal_eval c) as [desc'|] eqn:Hl; [|discriminate]. cbn [bind].
  intros [= <- <- <-]. by exists a, b, c.
Qed.

End EntryInvariant.

(** X8: what [parse_entry] decodes is well formed, however lenient the
    text was: the start is a valid date and time without microseconds
    and the duration is in normal form without microseconds; so is every
    entry [load()] returns. *)
Theorem decoded_entry_well_formed {R : Runtime} :
  (forall line start delta desc,
     parse_entry line = Ok (start, delta, desc) ->
     valid_datetimeb start = true /\ microsecond start = 0
     /\ normal_td delta /\ microseconds delta = 0)
  /\ (forall fs entries,
        RecordStore.load fs = Ok entries ->
        Forall (fun e : entry =>
                  valid_datetimeb e.1.1 = true /\ microsecond e.1.1 = 0
                  /\ normal_td e.1.2 /\ microseconds e.1.2 = 0) entries).
Proof.
  assert (Hone : forall line start delta desc,
            parse_entry line = Ok (start, delta, desc) ->
            valid_datetimeb start = true /\ microsecond start = 0
            /\ normal_td delta /\ microseconds delta = 0).
  { intros line start delta desc (a & b & c & _ & Hs & Hd & _)%parse_entry_fields.
    split; [by eapply strptime_valid|]. split; [by eapply strptime_whole_second|].
    by apply parse_td_normal in Hd. }
  split; [exact Hone|].
  intros fs entries. unfold RecordStore.load.
  destruct (fs !! RecordStore.log) as [text|]; [|discriminate].
  intros Hall%map_res_Forall2.
  induction Hall as [|line [[start delta] desc] ? ? Hline _ IH]; constructor; [|done].
  by apply Hone in Hline.
Qed.

Lemma decoded_entry_well_formed_witness :
  valid_datetimeb day1_9am = true /\ microsecond day1_9am = 0
  /\ normal_td {| days := 0; seconds := 3723; microseconds := 0 |}
  /\ microseconds {| days := 0; seconds := 3723; microseconds := 0 |} = 0.
Proof.
  apply (decoded_entry_well_formed (R := latin1)) with (line := lenient_line) (desc := VStr (u "x")).
  vm_compute. reflexivity.
Defined.

(** ** Appending to a log that holds entries *)

Lemma translate_newlines_app text rest :
  last text <> Some CR ->
  translate_newlines (text ++ rest) = translate_newlines text ++ translate_newlines rest.
Proof.
  remember (length text) as n eqn:Hn. revert text Hn.
  induction n as [n IH] using lt_wf_ind. intros text Hn Hlast.
  destruct text as [|c [|c' t]].
  - reflexivity.
  - cbn [app translate_newlines].
    destruct (Z.eqb_spec c CR) as [->|_]; [by destruct Hlast|]. reflexivity.
  - cbn [app translate_newlines].
    assert (Hlast' : last (c' :: t) <> Some CR) by (by rewrite last_cons_cons in Hlast).
    destruct (Z.eqb_spec c CR) as [_|_].
    + destruct (Z.eqb_spec c' LF) as [_|_].
      * cbn [app]. f_equal. apply (IH (length t)); [cbn in Hn; lia|done|].
        destruct t as [|x t]; [done|]. by rewrite last_cons_cons in Hlast'.
      * cbn [app]. f_equal. apply (IH (length (c' :: t)) ltac:(cbn in *; lia) (c' :: t)); done.
    + cbn [app]. f_equal.
      apply (IH (length (c' :: t)) ltac:(cbn in *; lia) (c' :: t)); done.
Qed.

Lemma translate_newlines_last text :
  last text = Some LF -> last (translate_newlines text) = Some LF.
Proof.
  remember (length text) as n eqn:Hn. revert text Hn.
  induction n as [n IH] using lt_wf_ind. intros text Hn Hlast.
  destruct text as [|c [|c' t]]; [done| |].
  - cbn in Hlast. injection Hlast as ->. reflexivity.
  - rewrite last_cons_cons in Hlast. cbn [translate_newlines].
    assert (Hrec : forall x, last (x :: translate_newlines (c' :: t)) = Some LF).
    { intros x.
      pose proof (IH (length (c' :: t)) ltac:(cbn in *; lia) (c' :: t) eq_refl Hlast) as Ht.
      destruct (translate_newlines (c' :: t)); [done|]. by rewrite last_cons_cons. }
    destruct (Z.eqb_spec c CR) as [_|_]; [|apply Hrec].
    destruct (Z.eqb_spec c' LF) as [_|_]; [|apply Hrec].
    destruct t as [|x t]; [done|]. rewrite last_cons_cons in Hlast.
    pose proof (IH (length (x :: t)) ltac:(cbn in *; lia) (x :: t) eq_refl Hlast) as Ht.
    destruct (translate_newlines (x :: t)); [done|]. by rewrite last_cons_cons.
Qed.

Lemma lines_from_app cur t r :
  last t = Some LF ->
  lines_from cur (t ++ r) = lines_from cur t ++ lines_from [] r.
Proof.
  revert cur. induction t as [|c t IH]; intros cur Hlast; [done|].
  cbn [app lines_from]. destruct t as [|c' t].
  - cbn in Hlast. injection Hlast as ->. rewrite Z.eqb_refl. reflexivity.
  - rewrite last_cons_cons in Hlast.
    destruct (Z.eqb_spec c LF) as [_|_]; [cbn [app]; f_equal|]; by apply IH.
Qed.

Lemma readlines_app text rest :
  terminated text -> readlines (text ++ rest) = readlines text ++ readlines rest.
Proof.
  intros [->|Hlast]; [done|]. unfold readlines.
  rewrite translate_newlines_app by (rewrite Hlast; by intros [=]).
  by apply lines_from_app, translate_newlines_last.
Qed.

Lemma readlines_one line :
  Forall (fun c => c <> LF /\ c <> CR) line -> readlines (line ++ [LF]) = [line ++ [LF]].
Proof.
  intros Hline. pose proof (readlines_concat [line]) as H. cbn [map concat] in H.
  rewrite app_nil_r in H. apply H. by constructor.
Qed.

Lemma map_res_app {A B} (f : A -> res B) xs ys us vs :
  map_res f xs = Ok us -> map_res f ys = Ok vs ->
  map_res f (xs ++ ys) = Ok (us ++ vs).
Proof.
  revert us. induction xs as [|x xs IH]; intros us; cbn [map_res app].
  - by intros [= <-].
  - destruct (f x) as [y|]; [|discriminate]. cbn [bind].
    destruct (map_res f xs) as [ys'|]; [|discriminate]. cbn [bind].
    intros [= <-] Hvs. by rewrite (IH ys' eq_refl Hvs).
Qed.

Lemma terminated_app text line : terminated (text ++ line ++ [LF]).
Proof. right. by rewrite !app_assoc, last_snoc. Qed.

Section AppendFacts.
Context {R : Runtime}.

(** One more entry in a log that ends where a line ends. *)
Lemma load_write fs text old start delta desc :
  fs !! RecordStore.log = Some text -> terminated text ->
  RecordStore.load fs = Ok old ->
  valid_datetimeb start = true -> 0 <= seconds delta < 86400 ->
  Forall code_point desc ->
  RecordStore.load (RecordStore.write start delta (VStr desc) fs)
  = Ok (old ++ [(whole_second start, clock_part delta, VStr desc)]).
Proof.
  intros Hlog Hterm Hold Hv Hs Hdesc.
  rewrite (load_text _ _ Hlog) in Hold.
  rewrite (load_text _ (text ++ dump_entry (start, delta, VStr desc) ++ [LF])); cycle 1.
  { unfold RecordStore.write, str in *. by rewrite lookup_insert_eq, Hlog. }
  rewrite readlines_app by done.
  rewrite readlines_one by (by apply dump_entry_no_line_end).
  apply map_res_app; [done|]. cbn [map_res].
  by destruct (parse_dump_entry start delta desc Hv Hs Hdesc) as [_ ->].
Qed.

End AppendFacts.

(** X9: on a log that is empty or ends with a line feed and that
    [load()] can read, [write] of a time stamp of second precision, a
    duration below 24 hours and any description adds exactly one entry
    at the end of what [load()] returns, the duration without its
    fraction of a second; and the log written ends with a line feed
    again. *)
Theorem write_appends_entry {R : Runtime} (fs : gmap string str) (text : str)
    (old : list entry) (start : datetime) (delta : timedelta) (desc : str) :
  fs !! RecordStore.log = Some text -> terminated text ->
  RecordStore.load fs = Ok old ->
  writableb (start, delta, desc) = true ->
  RecordStore.load (RecordStore.write start delta (VStr desc) fs)
  = Ok (old ++ [(start, truncate_td delta, VStr desc)])
  /\ exists text', RecordStore.write start delta (VStr desc) fs !! RecordStore.log
                   = Some text' /\ terminated text'.
Proof.
  intros Hlog Hterm Hold (Hv & Hus & Hd & Hs & Hdesc)%writableb_writable.
  cbn [fst snd] in *. split.
  - rewrite (load_write fs text old) by done.
    by rewrite whole_second_id, clock_part_truncate.
  - exists (text ++ dump_entry (start, delta, VStr desc) ++ [LF]). split.
    + unfold RecordStore.write, str in *. by rewrite lookup_insert_eq, Hlog.
    + apply terminated_app.
Qed.

Lemma write_appends_entry_witness :
  RecordStore.load (R := latin1)
    (RecordStore.write (R := latin1) day2_10am five_and_a_half_seconds (VStr awkward_text)
       three_entries)
  = Ok [(day1_9am, five_seconds, VStr awkward_text);
        (day1_10am, five_seconds, VStr (u "second"));
        (day2_9am, five_seconds, VStr []);
        (day2_10am, five_seconds, VStr awkward_text)].
Proof.
  destruct (write_appends_entry (R := latin1) three_entries
              (default [] (three_entries !! RecordStore.log))
              [(day1_9am, five_seconds, VStr awkward_text);
               (day1_10am, five_seconds, VStr (u "second"));
               (day2_9am, five_seconds, VStr [])]
              day2_10am five_and_a_half_seconds awkward_text) as [Hload _].
  - vm_compute. reflexivity.
  - right. vm_compute. reflexivity.
  - vm_compute. reflexivity.
  - reflexivity.
  - exact Hload.
Defined.

(** ** The commands [end] and [switch] *)

Lemma lstrip_Forall (P : Z -> Prop) s : Forall P s -> Forall P (lstrip s).
Proof.
  induction 1 as [|c s Hc Hs IH]; cbn [lstrip]; [constructor|].
  destruct (isspace c); [done|by constructor].
Qed.

Lemma strip_Forall (P : Z -> Prop) s : Forall P s -> Forall P (strip s).
Proof.
  intros Hs. unfold strip, rstrip.
  by apply Forall_rev, lstrip_Forall, Forall_rev, lstrip_Forall.
Qed.

Section SessionFacts.
Context {R : Runtime}.

Lemma load_stop fs : RecordStore.load (RecordStore.stop fs) = RecordStore.load fs.
Proof.
  unfold RecordStore.load, RecordStore.stop.
  destruct (fs !! RecordStore.current_stamp); [|done].
  by rewrite lookup_delete_ne.
Qed.

(** What [current()] returns for an open session is fit for [write]. *)
Lemma current_writable now fs start delta :
  valid_datetimeb now = true ->
  RecordStore.current now fs = Ok (Some start, delta) ->
  valid_datetimeb start = true /\ microsecond start = 0 /\ normal_td delta.
Proof.
  intros Hnow (text & _ & Hparse & Hsub)%current_inv.
  split; [by eapply strptime_valid|]. split; [by eapply strptime_whole_second|].
  by destruct (datetime_sub_days now start delta Hnow (strptime_valid _ _ _ Hparse) Hsub).
Qed.

(** The [write] and [stop] that [end] and [switch] share. *)
Lemma close_session now fs logtext old start delta text :
  valid_datetimeb now = true ->
  RecordStore.current now fs = Ok (Some start, delta) ->
  days delta = 0 ->
  fs !! RecordStore.log = Some logtext -> terminated logtext ->
  RecordStore.load fs = Ok old ->
  textb text = true ->
  let fs' := RecordStore.stop (RecordStore.write start delta (VStr (strip text)) fs) in
  fs' !! RecordStore.current_stamp = None
  /\ RecordStore.load fs' = Ok (old ++ [(start, truncate_td delta, VStr (strip text))]).
Proof.
  intros Hnow Hcur Hdays Hlog Hterm Hold Htext%textb_Forall fs'. subst fs'.
  destruct (current_writable now fs start delta Hnow Hcur) as (Hv & Hus & Hs & _).
  split; [apply stop_marker|].
  rewrite load_stop, (load_write fs logtext old) by (done || by apply strip_Forall).
  by rewrite whole_second_id, clock_part_truncate.
Qed.

End SessionFacts.

(** X10: [end] on an open session whose elapsed time is below 24 hours,
    with a log that [load()] can read and that ends with a line feed:
    it echoes "Timer stopped!", leaves no marker, and [load()] then
    returns the entries of before and one more, made of the start of the
    session, the elapsed time in whole seconds and the text of the editor
    without the white space around it. *)
Theorem end_records_session {R : Runtime} (now : datetime) (text : str)
    (fs : gmap string str) (logtext : str) (old : list entry)
    (start : datetime) (delta : timedelta) :
  valid_datetimeb now = true ->
  RecordStore.current now fs = Ok (Some start, delta) ->
  days delta = 0 ->
  fs !! RecordStore.log = Some logtext -> terminated logtext ->
  RecordStore.load fs = Ok old ->
  textb text = true ->
  exists fs',
    end_ now (Some text) fs = Echo (GRAY ++ u "Timer stopped!" ++ END) fs'
    /\ fs' !! RecordStore.current_stamp = None
    /\ RecordStore.current now fs' = Ok (None, timedelta_zero)
    /\ RecordStore.load fs'
       = Ok (old ++ [(start, truncate_td delta, VStr (strip text))]).
Proof.
  intros Hnow Hcur Hdays Hlog Hterm Hold Htext.
  destruct (close_session now fs logtext old start delta text) as [Hidle Hload]; try done.
  eexists. split; [unfold end_; rewrite Hcur; reflexivity|].
  split; [done|]. split; [by apply current_idle|done].
Qed.

Lemma end_records_session_witness :
  exists fs',
    end_ (R := latin1) day1_9am_5s (Some edited_text) tracking_since_9am
    = Echo (GRAY ++ u "Timer stopped!" ++ END) fs'
    /\ fs' !! RecordStore.current_stamp = None
    /\ RecordStore.current (R := latin1) day1_9am_5s fs' = Ok (None, timedelta_zero)
    /\ RecordStore.load (R := latin1) fs'
       = Ok [(day1_9am, five_seconds, VStr (u "did X"))].
Proof.
  apply (end_records_session (R := latin1) day1_9am_5s edited_text tracking_since_9am
           [] [] day1_9am {| days := 0; seconds := 5; microseconds := 250000 |});
    try (vm_compute; reflexivity).
  by left.
Defined.



(** X12: [switch] on an open session whose elapsed time is below 24
    hours, with a log that [load()] can read and that ends with a line
    feed: it records the session as [end] does, then opens a new one at
    the time of its [start()]: the marker holds that time, and
    [current()] returns it, to the second, with the time elapsed since. *)
Theorem switch_records_and_restarts {R : Runtime} (now later : datetime) (text : str)
    (fs : gmap string str) (logtext : str) (old : list entry)
    (start : datetime) (delta : timedelta) :
  valid_datetimeb now = true -> valid_datetimeb later = true ->
  RecordStore.current now fs = Ok (Some start, delta) ->
  days delta = 0 ->
  fs !! RecordStore.log = Some logtext -> terminated logtext ->
  RecordStore.load fs = Ok old ->
  textb text = true ->
  exists fs',
    switch now (Some text) later fs = Echo (u "Switching timer...") fs'
    /\ fs' !! RecordStore.current_stamp = Some (strftime later DATE_FORMAT)
    /\ RecordStore.load fs'
       = Ok (old ++ [(start, truncate_td delta, VStr (strip text))])
    /\ forall now', valid_datetimeb now' = true ->
         exists elapsed,
           RecordStore.current now' fs' = Ok (Some (whole_second later), elapsed)
           /\ td_micros elapsed = instant now' - instant (whole_second later).
Proof.
  intros Hnow Hlater Hcur Hdays Hlog Hterm Hold Htext.
  destruct (close_session now fs logtext old start delta text) as [Hidle Hload]; try done.
  set (closed := RecordStore.stop (RecordStore.write start delta (VStr (strip text)) fs)) in *.
  exists (<[RecordStore.current_stamp := strftime later DATE_FORMAT]> closed).
  assert (Hstart : RecordStore.start later closed
                   = (true, <[RecordStore.current_stamp := strftime later DATE_FORMAT]> closed))
    by (by rewrite start_result, Hidle).
  split; [|split; [|split]].
  - unfold switch. rewrite Hcur. fold closed. by rewrite Hstart.
  - apply lookup_insert_eq.
  - rewrite <- Hload. unfold RecordStore.load. by rewrite lookup_insert_ne.
  - intros now' Hnow'.
    destruct (current_tracking now'
                (<[RecordStore.current_stamp := strftime later DATE_FORMAT]> closed)
                (strftime later DATE_FORMAT) (whole_second later) Hnow')
      as (elapsed & Hc & _ & _ & Hmicros).
    + apply lookup_insert_eq.
    + rewrite translate_newlines_id by (apply visible_no; [done|apply strftime_visible]).
      by apply strptime_strftime.
    + by exists elapsed.
Qed.

Lemma switch_records_and_restarts_witness :
  exists fs',
    switch (R := latin1) day1_9am_5s (Some edited_text) day1_10am tracking_since_9am
    = Echo (u "Switching timer...") fs'
    /\ fs' !! RecordStore.current_stamp = Some (u "2024-01-01 10:00:00")
    /\ RecordStore.load (R := latin1) fs' = Ok [(day1_9am, five_seconds, VStr (u "did X"))]
    /\ forall now', valid_datetimeb now' = true ->
         exists elapsed,
           RecordStore.current (R := latin1) now' fs' = Ok (Some day1_10am, elapsed)
           /\ td_micros elapsed = instant now' - instant day1_10am.
Proof.
  apply (switch_records_and_restarts (R := latin1) day1_9am_5s day1_10am edited_text
           tracking_since_9am [] [] day1_9am
           {| days := 0; seconds := 5; microseconds := 250000 |});
    try (vm_compute; reflexivity).
  by left.
Defined.

(** ** [current] and [status] against the clock *)

Section ClockFacts.
Context {R : Runtime}.

Lemma datetime_sub_days_lower a b td :
  valid_datetimeb a = true -> valid_datetimeb b = true ->
  datetime_sub a b = Ok td ->
  - MAXORDINAL <= days td /\ td_micros td = instant a - instant b.
Proof.
  intros Ha Hb Hsub.
  pose proof (toordinal_bounds a Ha). pose proof (toordinal_bounds b Hb).
  pose proof (seconds_of_day_bounds a Ha). pose proof (seconds_of_day_bounds b Hb).
  pose proof Ha as [_ _ _ _ _ _ Hua]%valid_datetimeb_ok.
  pose proof Hb as [_ _ _ _ _ _ Hub]%valid_datetimeb_ok.
  unfold MAXORDINAL in *.
  destruct (timedelta_new_spec (toordinal a - toordinal b)
              (seconds_of_day a - seconds_of_day b)
              (microsecond a - microsecond b)) as (td' & Htd & _ & Hm & Hdays).
  - Z.div_mod_to_equations. lia.
  - unfold datetime_sub in Hsub. rewrite Htd in Hsub. injection Hsub as <-.
    split; [rewrite Hdays; Z.div_mod_to_equations; lia|].
    rewrite Hm. unfold instant. lia.
Qed.

(** Adding a negative duration to 0001-01-01 leaves the calendar. *)
Lemma origin_add_negative delta :
  normal_td delta -> - MAXORDINAL <= days delta < 0 ->
  datetime_add {| year := 1; month := 1; day := 1;
                  hour := 0; minute := 0; second := 0; microsecond := 0 |} delta
  = Raise OverflowError.
Proof.
  intros [Hs Hu] Hd. unfold MAXORDINAL in Hd. unfold datetime_add.
  change (timedelta_new _ _ _) with (Ok {| days := 1; seconds := 0; microseconds := 0 |}).
  cbn [bind]. unfold timedelta_add. cbn [days seconds microseconds].
  rewrite timedelta_new_ok by (Z.div_mod_to_equations; lia).
  cbn [bind days seconds microseconds].
  replace (1 + days delta + (0 + seconds delta + (0 + microseconds delta) / 1000000) / 86400)
    with (1 + days delta) by (Z.div_mod_to_equations; lia).
  by destruct (Z.ltb_spec 0 (1 + days delta)); [lia|].
Qed.

End ClockFacts.

(** X13: for an open session whose elapsed time is not negative,
    [status] shows the very text that [dump_td] writes to the log for
    that elapsed time. *)
Theorem status_shows_dump_td {R : Runtime} (now : datetime) (fs : gmap string str)
    (start : datetime) (delta : timedelta) :
  valid_datetimeb now = true ->
  RecordStore.current now fs = Ok (Some start, delta) ->
  0 <= days delta ->
  status now fs = Ok (BLUE ++ u "Time elapsed: " ++ dump_td delta ++ END).
Proof.
  intros Hnow Hcur Hdays.
  destruct (current_inv _ _ _ _ Hcur) as (text & _ & Hparse & Hsub).
  destruct (datetime_sub_days now start delta Hnow (strptime_valid _ _ _ Hparse) Hsub)
    as [Hn Hmax].
  destruct (origin_add delta Hn (conj Hdays Hmax)) as (time & Hadd & Hh & Hm & Hs).
  unfold status. rewrite Hcur. cbn [bind].
  change (datetime_new 1 1 1 0 0 0)
    with (Ok {| year := 1; month := 1; day := 1;
                hour := 0; minute := 0; second := 0; microsecond := 0 |}).
  cbn [bind]. rewrite Hadd. cbn [bind]. rewrite strftime_HMS, Hh, Hm, Hs.
  destruct Hn as [Hsec _]. rewrite dump_td_digits by done.
  replace (seconds delta mod 3600 mod 60) with (seconds delta mod 60)
    by (Z.div_mod_to_equations; lia).
  reflexivity.
Qed.

Lemma status_shows_dump_td_witness :
  status (R := latin1) day1_9am_5s tracking_since_9am
  = Ok (BLUE ++ u "Time elapsed: 00:00:05" ++ END).
Proof.
  apply (status_shows_dump_td (R := latin1) day1_9am_5s tracking_since_9am day1_9am
           {| days := 0; seconds := 5; microseconds := 250000 |});
    [reflexivity|vm_compute; reflexivity|vm_compute; discriminate].
Defined.

(** X14: when the clock reads a time before that of the marker (the
    clock was set back), [current()] still returns the negative elapsed
    time, but [status] stops with [OverflowError]. *)
Theorem status_clock_set_back {R : Runtime} (now : datetime) (fs : gmap string str)
    (start : datetime) (delta : timedelta) :
  valid_datetimeb now = true ->
  RecordStore.current now fs = Ok (Some start, delta) ->
  instant now < instant start ->
  days delta < 0 /\ status now fs = Raise OverflowError.
Proof.
  intros Hnow Hcur Hbefore.
  destruct (current_inv _ _ _ _ Hcur) as (text & _ & Hparse & Hsub).
  pose proof (strptime_valid _ _ _ Hparse) as Hstart.
  destruct (datetime_sub_days now start delta Hnow Hstart Hsub) as [Hn _].
  destruct (datetime_sub_days_lower now start delta Hnow Hstart Hsub) as [Hlow Hmicros].
  assert (Hneg : days delta < 0).
  { destruct Hn as [Hs Hu]. unfold td_micros in Hmicros. nia. }
  split; [done|].
  unfold status. rewrite Hcur. cbn [bind].
  change (datetime_new 1 1 1 0 0 0)
    with (Ok {| year := 1; month := 1; day := 1;
                hour := 0; minute := 0; second := 0; microsecond := 0 |}).
  cbn [bind]. by rewrite origin_add_negative.
Qed.

Lemma status_clock_set_back_witness :
  status (R := latin1) day1_midnight tracking_since_9am = Raise OverflowError.
Proof.
  apply (status_clock_set_back (R := latin1) day1_midnight tracking_since_9am day1_9am
           {| days := -1; seconds := 54000; microseconds := 0 |});
    vm_compute; reflexivity.
Defined.

(** X15: while a session is open, two calls of [current()] return the
    same start, and their durations differ by the time between the two
    readings of the clock. *)
Theorem current_follows_clock {R : Runtime} (now1 now2 : datetime)
    (fs : gmap string str) (start1 start2 : datetime) (delta1 delta2 : timedelta) :
  valid_datetimeb now1 = true -> valid_datetimeb now2 = true ->
  RecordStore.current now1 fs = Ok (Some start1, delta1) ->
  RecordStore.current now2 fs = Ok (Some start2, delta2) ->
  start1 = start2
  /\ td_micros delta2 - td_micros delta1 = instant now2 - instant now1.
Proof.
  intros Hnow1 Hnow2 (text1 & Hm1 & Hp1 & Hs1)%current_inv
    (text2 & Hm2 & Hp2 & Hs2)%current_inv.
  rewrite Hm1 in Hm2. injection Hm2 as <-. rewrite Hp1 in Hp2. injection Hp2 as <-.
  split; [done|].
  pose proof (strptime_valid _ _ _ Hp1) as Hstart.
  destruct (datetime_sub_days_lower now1 start1 delta1 Hnow1 Hstart Hs1) as [_ ->].
  destruct (datetime_sub_days_lower now2 start1 delta2 Hnow2 Hstart Hs2) as [_ ->].
  lia.
Qed.

Lemma current_follows_clock_witness :
  day1_9am = day1_9am
  /\ td_micros {| days := 0; seconds := 3600; microseconds := 0 |}
     - td_micros {| days := 0; seconds := 5; microseconds := 250000 |}
     = instant day1_10am - instant day1_9am_5s.
Proof.
  apply (current_follows_clock (R := latin1) day1_9am_5s day1_10am tracking_since_9am);
    vm_compute; reflexivity.
Defined.

(** X16: a marker file that does not hold a time stamp, such as one left
    empty, blocks the timer: [current()], [status], [end] and [switch]
    stop with the error of [strptime], and [start()] refuses because the
    file exists; after [stop()] a [start()] succeeds again. *)
Theorem unreadable_marker {R : Runtime} (now later : datetime) (edited : option str)
    (fs : gmap string str) (text : str) (e : exn) :
  fs !! RecordStore.current_stamp = Some text ->
  strptime (translate_newlines text) DATE_FORMAT = Raise e ->
  RecordStore.current now fs = Raise e
  /\ status now fs = Raise e
  /\ end_ now edited fs = Crash e
  /\ switch now edited later fs = Crash e
  /\ RecordStore.start now fs = (false, fs)
  /\ (RecordStore.start now (RecordStore.stop fs)).1 = true
  /\ strptime [] DATE_FORMAT = Raise ValueError.
Proof.
  intros Hm Hparse.
  assert (Hcur : RecordStore.current now fs = Raise e).
  { unfold RecordStore.current. by rewrite Hm, Hparse. }
  split; [done|]. split; [unfold status; by rewrite Hcur|].
  split; [unfold end_; by rewrite Hcur|]. split; [unfold switch; by rewrite Hcur|].
  split; [by rewrite start_result, Hm|].
  split; [by rewrite start_result, stop_marker|]. reflexivity.
Qed.

Lemma unreadable_marker_witness :
  RecordStore.current (R := latin1) day1_9am
    (<[RecordStore.current_stamp := []]> (RecordStore.init ∅))
  = Raise ValueError.
Proof.
  apply (unreadable_marker (R := latin1) day1_9am day1_9am None
           (<[RecordStore.current_stamp := []]> (RecordStore.init ∅)) [] ValueError);
    vm_compute; reflexivity.
Defined.

(** ** [show] and [log] *)

Section ShowFacts.
Context {R : Runtime}.

Lemma compile_DAY_FORMAT :
  compile_format false DAY_FORMAT
  = Some [IGroup DY; ILit 45; IGroup Dm; ILit 45; IGroup Dd].
Proof. reflexivity. Qed.

Lemma strftime_DAY_FORMAT t :
  strftime t DAY_FORMAT
  = dec_fixed 4 (year t) ++ 45 :: dec_fixed 2 (month t) ++ 45 :: dec_fixed 2 (day t).
Proof.
  cbv -[dec_fixed app Z.add Z.div Z.modulo year month day hour minute second].
  by rewrite app_nil_r.
Qed.

Lemma valid_midnight t : valid_datetimeb t = true -> valid_datetimeb (midnight t) = true.
Proof.
  rewrite !valid_datetimeb_ok. intros [? ? ? ? ? ? ?]. split; cbn; lia.
Qed.

(** A date written as year, month and day is read back as the midnight
    of that date. *)
Lemma strptime_strftime_day t :
  valid_datetimeb t = true ->
  strptime (strftime t DAY_FORMAT) DAY_FORMAT = Ok (midnight t).
Proof.
  intros Hv. pose proof Hv as [Hy Hm Hd _ _ _ _]%valid_datetimeb_ok.
  pose proof (days_in_month_bound (year t) (month t)) as Hdim.
  assert (Hdig : forall x, 0 <= x mod 10 <= 9)
    by (intros x; pose proof (Z.mod_pos_bound x 10); lia).
  pose proof (py_int_4 (year t) ltac:(lia)) as Hpy.
  pose proof (py_int_2 (month t) ltac:(lia)) as Hpm.
  pose proof (py_int_2 (day t) ltac:(lia)) as Hpd.
  unfold strptime. rewrite compile_DAY_FORMAT, strftime_DAY_FORMAT.
  cbn [dec_fixed app] in *.
  erewrite re_match_year; try (apply is_digit_ascii, Hdig); cycle 1.
  - apply re_match_lit, re_match_group2; [apply take2_month; lia|].
    apply re_match_lit, re_match_group2; [apply take2_day; lia|].
    reflexivity.
  - cbn [group directive_eqb]. rewrite Hpy, Hpm, Hpd. cbn [bind].
    unfold datetime_new.
    change {| year := year t; month := month t; day := day t; hour := 0;
              minute := 0; second := 0; microsecond := 0 |} with (midnight t).
    by rewrite valid_midnight.
Qed.

End ShowFacts.

(** X17: given as [--date] the calendar date of a time, written as year,
    month and day, [show] selects the entries of that date, whatever the
    clock reads: the entries it returns are those of [load()] whose
    start is on that date, in the order of the log. *)
Theorem show_date_of {R : Runtime} (now t : datetime) (fs : gmap string str)
    (entries : list entry) :
  valid_datetimeb t = true ->
  RecordStore.load fs = Ok entries ->
  exists records,
    show now (Some (strftime t DAY_FORMAT)) fs = Ok records
    /\ records `sublist_of` entries
    /\ forall e, e ∈ records <-> e ∈ entries /\ date_of e.1.1 = date_of t.
Proof.
  intros Hv Hload. unfold show.
  change (u "%Y-%m-%d") with DAY_FORMAT.
  rewrite strptime_strftime_day, Hload by done. cbn [bind].
  eexists. split; [reflexivity|]. split; [apply sublist_filter|].
  intros e. rewrite list_elem_of_filter, bool_decide_spec.
  change (date_of (midnight t)) with (date_of t). tauto.
Qed.

Lemma show_date_of_witness :
  exists records,
    show (R := latin1) day2_10am (Some (u "2024-01-01")) three_entries = Ok records
    /\ records `sublist_of`
         [(day1_9am, five_seconds, VStr awkward_text);
          (day1_10am, five_seconds, VStr (u "second"));
          (day2_9am, five_seconds, VStr [])]
    /\ forall e, e ∈ records <->
         e ∈ [(day1_9am, five_seconds, VStr awkward_text);
              (day1_10am, five_seconds, VStr (u "second"));
              (day2_9am, five_seconds, VStr [])]
         /\ date_of e.1.1 = (2024, 1, 1).
Proof.
  apply (show_date_of (R := latin1) day2_10am day1_9am_5s three_entries
           [(day1_9am, five_seconds, VStr awkward_text);
            (day1_10am, five_seconds, VStr (u "second"));
            (day2_9am, five_seconds, VStr [])]);
    vm_compute; reflexivity.
Defined.

Section ListingShape.
Context {R : Runtime}.

Lemma separators_grouped prev es :
  separators (grouped prev es)
  = (match prev, es with
     | Some p, e :: _ => if bool_decide (date_of p.1.1 = date_of e.1.1) then 0 else 1
     | _, _ => 0
     end + date_changes es)%nat.
Proof.
  revert prev. induction es as [|e es IH]; intros prev; [by destruct prev|].
  cbn [grouped].
  assert (Hrest : separators (grouped (Some e) es) = date_changes (e :: es)).
  { rewrite IH. by destruct es. }
  destruct prev as [p|]; [|exact Hrest].
  destruct (bool_decide (date_of p.1.1 = date_of e.1.1)); cbn [app separators];
    by rewrite Hrest.
Qed.

(** In a listing every separator is followed by an entry. *)
Lemma separator_then_line prev es i :
  grouped prev es !! i = Some Separator ->
  exists e, grouped prev es !! S i = Some (Line e).
Proof.
  revert prev i. induction es as [|e es IH]; intros prev i; [done|].
  cbn [grouped].
  assert (Hrest : forall j, (Line e :: grouped (Some e) es) !! j = Some Separator ->
                  exists e', (Line e :: grouped (Some e) es) !! S j = Some (Line e')).
  { intros [|j]; [done|]. cbn. apply IH. }
  destruct prev as [p|]; [|apply Hrest].
  destruct (bool_decide (date_of p.1.1 = date_of e.1.1)); [apply Hrest|].
  cbn [app]. destruct i as [|i]; [by exists e|]. cbn. apply Hrest.
Qed.

End ListingShape.

(** X18: the listing of [log] has one text for each entry and one
    separator for each change of date between neighbours of the reverse
    order; it never starts with a separator, and every separator is
    followed by the line of an entry, so that it never ends with one nor
    has two in a row. *)
Theorem log_listing_shape {R : Runtime} (fs : gmap string str) (entries : list entry) :
  RecordStore.load fs = Ok entries ->
  exists items,
    log fs = Ok (map render items)
    /\ lines_of items = rev entries
    /\ separators items = date_changes (rev entries)
    /\ length items = (length entries + date_changes (rev entries))%nat
    /\ items !! 0%nat <> Some Separator
    /\ forall i, items !! i = Some Separator -> exists e, items !! S i = Some (Line e).
Proof.
  intros Hload. exists (grouped None (rev entries)).
  assert (Hlen : forall items, length items = (length (lines_of items) + separators items)%nat).
  { induction items as [|[|e] items IH]; cbn; lia. }
  split; [|split; [|split; [|split; [|split]]]].
  - unfold log, reverse_log. rewrite Hload. cbn [bind].
    by destruct (reverse_log_grouped (rev entries)) as [-> _].
  - apply lines_of_grouped.
  - by rewrite separators_grouped.
  - by rewrite Hlen, lines_of_grouped, separators_grouped, length_rev.
  - by destruct (rev entries).
  - intros i. apply separator_then_line.
Qed.

Lemma log_listing_shape_witness :
  exists items,
    log (R := latin1) three_entries = Ok (map (render (R := latin1)) items)
    /\ lines_of items
       = [(day2_9am, five_seconds, VStr []);
          (day1_10am, five_seconds, VStr (u "second"));
          (day1_9am, five_seconds, VStr awkward_text)]
    /\ separators items = 1%nat
    /\ length items = 4%nat
    /\ items !! 0%nat <> Some Separator
    /\ forall i, items !! i = Some Separator -> exists e, items !! S i = Some (Line e).
Proof.
  apply (log_listing_shape (R := latin1) three_entries
           [(day1_9am, five_seconds, VStr awkward_text);
            (day1_10am, five_seconds, VStr (u "second"));
            (day2_9am, five_seconds, VStr [])]).
  vm_compute. reflexivity.
Defined.

(** ** More on lines *)

(** X19: [dump_entry] gives different lines to different entries: two
    entries with time stamps of second precision and durations of whole
    seconds below 24 hours that are written as the same line are the
    same entry. *)
Theorem dump_entry_injective {R : Runtime} (e1 e2 : datetime * timedelta * str) :
  writableb e1 = true -> writableb e2 = true ->
  microseconds e1.1.2 = 0 -> microseconds e2.1.2 = 0 ->
  dump_entry (e1.1.1, e1.1.2, VStr e1.2) = dump_entry (e2.1.1, e2.1.2, VStr e2.2) ->
  e1 = e2.
Proof.
  destruct e1 as [[s1 d1] t1], e2 as [[s2 d2] t2]. cbn [fst snd].
  intros (Hv1 & Hu1 & Hd1 & Hs1 & Ht1)%writableb_writable
         (Hv2 & Hu2 & Hd2 & Hs2 & Ht2)%writableb_writable Hm1 Hm2 Hline.
  cbn [fst snd] in *.
  destruct (parse_dump_entry s1 d1 t1 Hv1 Hs1 Ht1) as [Hp1 _].
  destruct (parse_dump_entry s2 d2 t2 Hv2 Hs2 Ht2) as [Hp2 _].
  rewrite Hline, Hp2 in Hp1.
  rewrite !whole_second_id, !clock_part_truncate, !truncate_td_id in Hp1 by done.
  by injection Hp1 as -> -> ->.
Qed.

Lemma dump_entry_injective_witness :
  (day1_9am, five_seconds, awkward_text) = (day1_9am, five_seconds, awkward_text).
Proof.
  apply (dump_entry_injective (R := latin1)); reflexivity.
Defined.

(** X20: the command [start] leaves a session open in every case; it
    echoes "Timer started!" when there was none, having written the
    marker with the time of the clock, and "Timer already started." when
    there was one, the store being left as it was. *)
Theorem start_command (now : datetime) (fs : gmap string str) :
  exists text fs',
    start now fs = Echo text fs'
    /\ is_Some (fs' !! RecordStore.current_stamp)
    /\ (fs !! RecordStore.current_stamp = None ->
          text = GRAY ++ u "Timer started!" ++ END
          /\ fs' = <[RecordStore.current_stamp := strftime now DATE_FORMAT]> fs)
    /\ (is_Some (fs !! RecordStore.current_stamp) ->
          text = RED ++ u "Timer already started." ++ END /\ fs' = fs).
Proof.
  unfold start. rewrite start_result.
  destruct (fs !! RecordStore.current_stamp) as [marker|] eqn:Hm.
  - eexists _, _. split; [reflexivity|]. split; [by rewrite Hm|].
    split; [done|]. done.
  - eexists _, _. split; [reflexivity|]. split; [by rewrite lookup_insert_eq|].
    split; [done|]. by intros [? ?].
Qed.

Lemma start_command_witness :
  exists text fs',
    start day1_10am tracking_since_9am = Echo text fs'
    /\ text = RED ++ u "Timer already started." ++ END /\ fs' = tracking_since_9am.
Proof.
  destruct (start_command day1_10am tracking_since_9am)
    as (text & fs' & Hrun & _ & _ & Halready).
  exists text, fs'. split; [exact Hrun|]. apply Halready. vm_compute. eauto.
Defined.

Lemma lines_from_unterminated t cur :
  last t <> Some LF -> (t = [] -> cur <> []) ->
  exists init x,
    lines_from cur t = init ++ [x]
    /\ forall l, Forall (fun c => c <> LF) l ->
         lines_from cur (t ++ l ++ [LF]) = init ++ [x ++ l ++ [LF]].
Proof.
  revert cur. induction t as [|c t IH]; intros cur Hlast Hcur.
  - exists [], (rev cur). split.
    + cbn [lines_from]. destruct cur; [by destruct Hcur|done].
    + intros l Hl. cbn [app]. by rewrite lines_from_line.
  - cbn [app lines_from]. destruct (Z.eqb_spec c LF) as [->|Hc].
    + destruct (IH []) as (init & x & Hold & Hnew).
      * destruct t; [by destruct Hlast|]. by rewrite last_cons_cons in Hlast.
      * intros ->. by destruct Hlast.
      * exists (rev (LF :: cur) :: init), x. split; [by rewrite Hold|].
        intros l Hl. by rewrite Hnew.
    + destruct (IH (c :: cur)) as (init & x & Hold & Hnew).
      * destruct t; [done|]. by rewrite last_cons_cons in Hlast.
      * done.
      * by exists init, x.
Qed.

(** X21: on a log whose text does not end with a line feed (one changed
    by hand, without carriage returns), [write] starts no line: its text
    is glued to the last line of the log, so that [load()], when it
    still succeeds, returns no more entries than the log had lines. *)
Theorem write_on_unterminated_log {R : Runtime} (fs : gmap string str) (text : str)
    (start : datetime) (delta : timedelta) (desc : str) :
  fs !! RecordStore.log = Some text ->
  text <> [] -> last text <> Some LF -> Forall (fun c => c <> CR) text ->
  0 <= seconds delta < 86400 ->
  exists init x,
    readlines text = init ++ [x]
    /\ readlines (text ++ dump_entry (start, delta, VStr desc) ++ [LF])
       = init ++ [x ++ dump_entry (start, delta, VStr desc) ++ [LF]]
    /\ forall entries,
         RecordStore.load (RecordStore.write start delta (VStr desc) fs) = Ok entries ->
         length entries = length (readlines text).
Proof.
  intros Hlog Hne Hlast Hcr Hs.
  pose proof (dump_entry_no_line_end start delta desc Hs) as Hline.
  assert (Hlf : Forall (fun c => c <> LF) (dump_entry (start, delta, VStr desc)))
    by (eapply Forall_impl; [exact Hline|]; by intros c [? _]).
  assert (Hnocr : Forall (fun c => c <> CR)
                    (text ++ dump_entry (start, delta, VStr desc) ++ [LF])).
  { apply Forall_app. split; [done|]. apply Forall_app. split.
    - eapply Forall_impl; [exact Hline|]. by intros c [_ ?].
    - by repeat constructor. }
  destruct (lines_from_unterminated text [] Hlast) as (init & x & Hold & Hnew); [done|].
  exists init, x. unfold readlines. rewrite !translate_newlines_id by done.
  split; [done|]. split; [by apply Hnew|].
  intros entries.
  rewrite (load_text _ (text ++ dump_entry (start, delta, VStr desc) ++ [LF])); cycle 1.
  { unfold RecordStore.write, str in *. by rewrite lookup_insert_eq, Hlog. }
  intros Hlen%map_res_length. rewrite Hlen. unfold readlines.
  rewrite translate_newlines_id, (Hnew _ Hlf), Hold by done.
  by rewrite !length_app.
Qed.

Lemma write_on_unterminated_log_witness :
  exists init x,
    readlines (u "a line without its end") = init ++ [x]
    /\ readlines (u "a line without its end"
                  ++ dump_entry (R := latin1) (day2_9am, five_seconds, VStr []) ++ [LF])
       = init ++ [x ++ dump_entry (R := latin1) (day2_9am, five_seconds, VStr []) ++ [LF]]
    /\ forall entries,
         RecordStore.load (R := latin1)
           (RecordStore.write (R := latin1) day2_9am five_seconds (VStr [])
              (<[RecordStore.log := u "a line without its end"]> ∅))
         = Ok entries ->
         length entries = length (readlines (u "a line without its end")).
Proof.
  apply (write_on_unterminated_log (R := latin1)
           (<[RecordStore.log := u "a line without its end"]> ∅)
           (u "a line without its end") day2_9am five_seconds []).
  - vm_compute. reflexivity.
  - discriminate.
  - vm_compute. discriminate.
  - vm_compute. repeat (apply Forall_cons; split; [discriminate|]). constructor.
  - simpl. lia.
Defined.

Lemma lstrip_spaces w s : forallb isspace w = true -> lstrip (w ++ s) = lstrip s.
Proof.
  induction w as [|c w IH]; cbn [forallb app lstrip]; [done|].
  intros [-> Hw]%andb_true_iff. by apply IH.
Qed.

Lemma lstrip_all_space w : forallb isspace w = true -> lstrip w = [].
Proof. intros Hw. rewrite <- (app_nil_r w). by rewrite lstrip_spaces. Qed.

Lemma lstrip_app_spaces s w :
  forallb isspace w = true ->
  lstrip (s ++ w) = match lstrip s with [] => [] | _ :: _ => lstrip s ++ w end.
Proof.
  intros Hw. induction s as [|c s IH]; cbn [app lstrip].
  - by apply lstrip_all_space.
  - by destruct (isspace c).
Qed.

Lemma forallb_isspace_rev w : forallb isspace w = true -> forallb isspace (rev w) = true.
Proof.
  rewrite !forallb_forall. intros Hw c Hc. apply Hw. by apply in_rev.
Qed.

Lemma rstrip_spaces s w : forallb isspace w = true -> rstrip (s ++ w) = rstrip s.
Proof.
  intros Hw. unfold rstrip. rewrite rev_app_distr.
  by rewrite lstrip_spaces by (by apply forallb_isspace_rev).
Qed.

Lemma strip_spaces w1 s w2 :
  forallb isspace w1 = true -> forallb isspace w2 = true ->
  strip (w1 ++ s ++ w2) = strip s.
Proof.
  intros Hw1 Hw2. unfold strip. rewrite lstrip_spaces, lstrip_app_spaces by done.
  destruct (lstrip s) as [|c t]; [done|]. by rewrite rstrip_spaces.
Qed.

(** X22: [parse_entry] does not see the white space around a line:
    blanks, tabs and line ends before and after it change neither the
    entry decoded nor the error raised. *)
Theorem parse_entry_ignores_margin {R : Runtime} (before line after : str) :
  forallb isspace before = true -> forallb isspace after = true ->
  parse_entry (before ++ line ++ after) = parse_entry line.
Proof.
  intros Hb Ha. unfold parse_entry. by rewrite strip_spaces.
Qed.

Lemma parse_entry_ignores_margin_witness :
  parse_entry (R := latin1) ([SPACE; TAB] ++ lenient_line ++ [SPACE; CR; LF])
  = parse_entry (R := latin1) lenient_line.
Proof.
  apply (parse_entry_ignores_margin (R := latin1) [SPACE; TAB] lenient_line [SPACE; CR; LF]);
    reflexivity.
Defined.

(** X23: a blank line is no entry: [parse_entry] raises [ValueError] on a
    line of white space only, the empty line among them, and [load()]
    fails on every log that holds such a line. *)
Theorem blank_line_fails {R : Runtime} (line : str) :
  forallb isspace line = true ->
  parse_entry line = Raise ValueError
  /\ forall fs text,
       fs !! RecordStore.log = Some text -> line ∈ readlines text ->
       is_ok (RecordStore.load fs) = false.
Proof.
  intros Hblank.
  assert (Hline : parse_entry line = Raise ValueError).
  { unfold parse_entry, strip. by rewrite lstrip_all_space. }
  split; [done|]. intros fs text Hlog Hin.
  rewrite (load_text _ _ Hlog).
  destruct (is_ok (map_res parse_entry (readlines text))) eqn:Hok; [|done].
  rewrite map_res_ok, Forall_forall in Hok. specialize (Hok line Hin).
  by rewrite Hline in Hok.
Qed.

Lemma blank_line_fails_witness :
  parse_entry (R := latin1) [LF] = Raise ValueError.
Proof. apply (blank_line_fails (R := latin1) [LF]). reflexivity. Defined.
